(** * CheckMate: requirement extraction, compliance analysis, report and delivery

    A shallow embedding of the Python sources

      - [CheckMate2/utils/text_processor.py]  (class [TextProcessor])
      - [CheckMate2/utils/image_processor.py] (class [ImageProcessor])
      - [utils/email_sender.py]               (class [EmailSender])

    Python [str] values are sequences of Unicode code points, Python objects
    of the kinds [json.loads] produces are the inductive [pyval], exceptions
    are values of an error monad, and the three outside services (the
    generative model, the OCR engine, the mail relay) are oracles whose
    answers are parameters of the functions that call them. *)

From Stdlib Require Import List ZArith NArith String Ascii Bool Lia DecimalString.
Import ListNotations.

Set Implicit Arguments.

(** ** Python strings *)

Module PyStr.

(** A character is a Unicode code point; a [str] is a list of them. *)
Definition char := N.
Definition pystr := list char.

Definition nl : char := 10%N.   (* "\n" *)
Definition dq : char := 34%N.   (* the double quote *)

(** Source literals are written in UTF-8, as in the [.py] files; [py]
    decodes the bytes of a literal into its code points. *)
Fixpoint utf8_decode (need : nat) (acc : N) (bs : list N) : pystr :=
  match bs with
  | [] => []
  | b :: bs' =>
      match need with
      | O =>
          if (b <? 128)%N then b :: utf8_decode 0 0%N bs'
          else if (b <? 224)%N then utf8_decode 1 (b - 192)%N bs'
          else if (b <? 240)%N then utf8_decode 2 (b - 224)%N bs'
          else utf8_decode 3 (b - 240)%N bs'
      | S O => (acc * 64 + (b - 128))%N :: utf8_decode 0 0%N bs'
      | S k => utf8_decode k (acc * 64 + (b - 128))%N bs'
      end
  end.

Definition py (s : string) : pystr :=
  utf8_decode 0 0%N (map N_of_ascii (list_ascii_of_string s)).

Definition char_eqb (a b : char) : bool := (a =? b)%N.

Fixpoint str_eqb (a b : pystr) : bool :=
  match a, b with
  | [], [] => true
  | x :: a', y :: b' => char_eqb x y && str_eqb a' b'
  | _, _ => false
  end.

(** [c in chars] *)
Definition mem (c : char) (chars : pystr) : bool := existsb (char_eqb c) chars.

(** [str.isspace] on one code point: the code points CPython's Unicode
    database classifies as whitespace. *)
Definition is_space (c : char) : bool :=
  ((9 <=? c) && (c <=? 13) || (28 <=? c) && (c <=? 32) || (c =? 133) ||
   (c =? 160) || (c =? 5760) || (8192 <=? c) && (c <=? 8202) ||
   (c =? 8232) || (c =? 8233) || (c =? 8239) || (c =? 8287) ||
   (c =? 12288))%N.

Fixpoint drop_while (p : char -> bool) (s : pystr) : pystr :=
  match s with
  | [] => []
  | c :: s' => if p c then drop_while p s' else s
  end.

(** [s.lstrip()], [s.rstrip()], [s.strip()] *)
Definition lstrip (s : pystr) : pystr := drop_while is_space s.
Definition rstrip (s : pystr) : pystr := rev (drop_while is_space (rev s)).
Definition strip (s : pystr) : pystr := rstrip (lstrip s).

(** [s.lstrip(chars)]: removes the longest leading run of characters that
    belong to the SET [chars]; [chars] is not a prefix. *)
Definition lstrip_chars (chars : pystr) (s : pystr) : pystr :=
  drop_while (fun c => mem c chars) s.

(** [s.split(sep)] for a one-character separator: always at least one
    field, empty fields kept. *)
Fixpoint split (sep : char) (s : pystr) : list pystr :=
  match s with
  | [] => [[]]
  | c :: s' =>
      if char_eqb c sep then [] :: split sep s'
      else match split sep s' with
           | [] => [[c]]
           | f :: fs => (c :: f) :: fs
           end
  end.

(** [sep.join(parts)] *)
Fixpoint join (sep : pystr) (parts : list pystr) : pystr :=
  match parts with
  | [] => []
  | [p] => p
  | p :: ps => p ++ sep ++ join sep ps
  end.

Definition unlines (ls : list pystr) : pystr := join [nl] ls.

(** [s.startswith(p)] *)
Fixpoint starts_with (p s : pystr) : bool :=
  match p, s with
  | [], _ => true
  | _ :: _, [] => false
  | x :: p', y :: s' => char_eqb x y && starts_with p' s'
  end.

(** [old in s] *)
Fixpoint contains (old s : pystr) : bool :=
  starts_with old s ||
  match s with
  | [] => false
  | _ :: s' => contains old s'
  end.

(** [s.replace(old, new)]: every non-overlapping occurrence of [old],
    scanning from the left.  [skip] counts the characters of a matched
    occurrence still to be passed over. *)
Fixpoint replace_from (old new : pystr) (skip : nat) (s : pystr) : pystr :=
  match s with
  | [] => []
  | c :: s' =>
      match skip with
      | S k => replace_from old new k s'
      | O =>
          if starts_with old s
          then new ++ replace_from old new (List.length old - 1) s'
          else c :: replace_from old new 0 s'
      end
  end.

Definition replace (old new : pystr) (s : pystr) : pystr :=
  match old with
  | [] => new ++ flat_map (fun c => c :: new) s
  | _ :: _ => replace_from old new 0 s
  end.

(** [s.count(sub)] for a non-empty [sub]: non-overlapping occurrences. *)
Fixpoint count_from (sub : pystr) (skip : nat) (s : pystr) : nat :=
  match s with
  | [] => 0
  | _ :: s' =>
      match skip with
      | S k => count_from sub k s'
      | O =>
          if starts_with sub s
          then S (count_from sub (List.length sub - 1) s')
          else count_from sub 0 s'
      end
  end.

Definition count (sub s : pystr) : nat := count_from sub 0 s.

(** [str(i)] for an [int] *)
Definition str_of_int (i : Z) : pystr := py (NilZero.string_of_int (Z.to_int i)).

End PyStr.
Export PyStr.

(** ** Python values, exceptions and effects *)

Module PyVal.

(** The objects [json.loads] builds, which are also the objects the analysis
    dictionaries are made of.  A [float] is identified by its [repr]; a
    [dict] keeps its items in insertion order, with distinct keys. *)
#[warnings="-register-all"] Inductive pyval : Type :=
| PNone
| PBool (b : bool)
| PInt (i : Z)
| PFloat (repr : pystr)
| PStr (s : pystr)
| PList (items : list pyval)
| PDict (items : list (pystr * pyval)).

(** Exceptions, all of them instances of [Exception]: these are what
    [except Exception] catches.  [json.JSONDecodeError] is the one class the
    sources name. *)
Inductive exn_class : Type :=
| JSONDecodeError
| TypeError
| AttributeError
| OtherException (name : pystr).

Record exn : Type := Exn { exn_cls : exn_class; exn_msg : pystr }.

Definition is_JSONDecodeError (e : exn) : bool :=
  match exn_cls e with
  | JSONDecodeError => true
  | _ => false
  end.

(** A computation returns or raises. *)
Inductive pyresult (A : Type) : Type :=
| Returned (a : A)
| Raised (e : exn).
Arguments Raised {A} e.

Definition bind {A B} (m : pyresult A) (k : A -> pyresult B) : pyresult B :=
  match m with
  | Returned a => k a
  | Raised e => Raised e
  end.

(** What the interpreter and its library supply: [json.loads] on a [str],
    and [repr] of a [str] (quoting and escaping by the Unicode database). *)
Class PyRuntime : Type := {
  json_loads : pystr -> pyresult pyval;
  str_repr : pystr -> pystr
}.

Definition type_name (v : pyval) : pystr :=
  match v with
  | PNone => py "NoneType"
  | PBool _ => py "bool"
  | PInt _ => py "int"
  | PFloat _ => py "float"
  | PStr _ => py "str"
  | PList _ => py "list"
  | PDict _ => py "dict"
  end.

(** [d.get(key)] on the items of a dict *)
Fixpoint lookup (key : pystr) (items : list (pystr * pyval)) : option pyval :=
  match items with
  | [] => None
  | (k, v) :: items' => if str_eqb k key then Some v else lookup key items'
  end.

(** [dict.get(key, default)] *)
Definition get_default (items : list (pystr * pyval)) (key : pystr) (default : pyval) : pyval :=
  match lookup key items with
  | Some v => v
  | None => default
  end.

(** [obj.get(key, default)]: only a [dict] has the method. *)
Definition py_get (obj : pyval) (key : pystr) (default : pyval) : pyresult pyval :=
  match obj with
  | PDict items => Returned (get_default items key default)
  | _ => Raised (Exn AttributeError
                   (py "'" ++ type_name obj ++ py "' object has no attribute 'get'"))
  end.

(** [iter(obj)], as a [for] loop or [enumerate] takes it: the elements of a
    list, the characters of a str, the keys of a dict. *)
Definition py_iter (obj : pyval) : pyresult (list pyval) :=
  match obj with
  | PList items => Returned items
  | PStr s => Returned (map (fun c => PStr [c]) s)
  | PDict items => Returned (map (fun kv => PStr (fst kv)) items)
  | _ => Raised (Exn TypeError
                   (py "'" ++ type_name obj ++ py "' object is not iterable"))
  end.

(** Truth value of an object, as [if obj] and [x if obj else y] test it. *)
Definition py_truth (obj : pyval) : bool :=
  match obj with
  | PNone => false
  | PBool b => b
  | PInt i => negb (i =? 0)%Z
  | PFloat r => negb (str_eqb r (py "0.0") || str_eqb r (py "-0.0"))
  | PStr s => negb (str_eqb s [])
  | PList items => match items with [] => false | _ => true end
  | PDict items => match items with [] => false | _ => true end
  end.

Section Formatting.
Context {RT : PyRuntime}.

(** [repr(obj)] *)
Fixpoint py_repr (obj : pyval) : pystr :=
  match obj with
  | PNone => py "None"
  | PBool true => py "True"
  | PBool false => py "False"
  | PInt i => str_of_int i
  | PFloat r => r
  | PStr s => str_repr s
  | PList items => py "[" ++ join (py ", ") (map py_repr items) ++ py "]"
  | PDict items =>
      py "{" ++
      join (py ", ")
           (map (fun kv => str_repr (fst kv) ++ py ": " ++ py_repr (snd kv)) items) ++
      py "}"
  end.

(** A replacement field [{obj}] of an f-string: [format(obj, '')], which is
    [str(obj)] for these types. *)
Definition py_format (obj : pyval) : pystr :=
  match obj with
  | PStr s => s
  | _ => py_repr obj
  end.

End Formatting.

(** [enumerate(items, start)] *)
Fixpoint enumerate (A : Type) (start : Z) (items : list A) : list (Z * A) :=
  match items with
  | [] => []
  | x :: items' => (start, x) :: enumerate (start + 1) items'
  end.

(** Observable effects, in the order they happen. *)
Inductive event : Type :=
| Print (msg : pystr)
| StError (msg : pystr)
| GenerateContent (prompt : pystr)
| SmtpConnect (host : pystr) (port : Z)
| SmtpStartTls
| SmtpLogin (user password : pystr)
| SmtpSendMessage (subject sender recipient html : pystr)
| SmtpQuit.

(** An effectful computation: its outcome and the effects it performed. *)
Definition io (A : Type) : Type := (pyresult A * list event)%type.

Definition io_ret {A} (a : A) : io A := (Returned a, []).
Definition io_raise {A} (e : exn) : io A := (Raised e, []).
Definition io_emit (ev : event) : io unit := (Returned tt, [ev]).
Definition io_lift {A} (r : pyresult A) : io A := (r, []).

Definition io_bind {A B} (m : io A) (k : A -> io B) : io B :=
  match m with
  | (Returned a, t) => let (r, t') := k a in (r, t ++ t')
  | (Raised e, t) => (Raised e, t)
  end.

(** [try: m  except <class>: handler], where [catches] tells whether the
    [except] clause matches the exception. *)
Definition io_try {A} (m : io A) (catches : exn -> bool) (handler : exn -> io A) : io A :=
  match m with
  | (Returned a, t) => (Returned a, t)
  | (Raised e, t) =>
      if catches e then let (r, t') := handler e in (r, t ++ t')
      else (Raised e, t)
  end.

(** [except Exception] *)
Definition any_Exception (e : exn) : bool := true.

End PyVal.
Export PyVal.

Declare Scope py_scope.
Delimit Scope py_scope with py.
Notation "x <- m ;; k" := (bind m (fun x => k))
  (at level 61, m at next level, right associativity) : py_scope.
Notation "'do' x <- m ;; k" := (io_bind m (fun x => k))
  (at level 61, x name, m at next level, right associativity) : py_scope.
Notation "'run' m ;; k" := (io_bind m (fun _ => k))
  (at level 61, m at next level, right associativity) : py_scope.
Open Scope py_scope.

(** ** [text_processor.py] *)

Module TextProcessor.

(** [self]: the object holds the generative model.  [generate_content]
    stands for the outbound call of [self.model.generate_content(prompt)]
    together with the read of [response.text]: the text of the answer, or
    the exception either of them raises. *)
Record t : Type := { generate_content : pystr -> pyresult pystr }.

Definition call_model (self : t) (prompt : pystr) : io pystr :=
  run io_emit (GenerateContent prompt) ;; io_lift (generate_content self prompt).

Definition nonempty (s : pystr) : bool := negb (str_eqb s []).

(** Lines 65-68 of [extract_requirements]: the line-splitting fallback. *)
Definition split_requirements (response_text : pystr) : list pystr :=
  let lines := split nl (strip response_text) in
  let requirements :=
    map (fun line =>
           lstrip_chars (py "3. ")
             (lstrip_chars (py "2. ")
                (lstrip_chars (py "1. ")
                   (lstrip_chars (py "* ")
                      (lstrip_chars (py "- ") (strip line))))))
        (filter (fun line => nonempty (strip line)) lines) in
  filter nonempty requirements.

Section Methods.
Context {RT : PyRuntime}.

Definition extract_requirements_prompt (text : pystr) : pystr :=
  unlines
    [ [];
      py "        다음 텍스트에서 수행평가의 요구조건을 추출해주세요.";
      py "        각 요구조건을 별도의 항목으로 나누어 리스트 형태로 반환해주세요.";
      py "        ";
      py "        텍스트:";
      py "        " ] ++
  text ++
  unlines
    [ [];
      py "        ";
      py "        요구조건을 JSON 배열 형태로 반환해주세요:";
      py "        " ].

(** [extract_requirements(self, text)] *)
Definition extract_requirements (self : t) (text : pystr) : io (list pyval) :=
  let prompt := extract_requirements_prompt text in
  io_try
    (do response_text <- call_model self prompt ;;
     do parsed <-
       io_try
         (do requirements <- io_lift (json_loads response_text) ;;
          match requirements with
          | PList items => io_ret (Some items)
          | _ => io_ret None
          end)
         is_JSONDecodeError
         (fun _ => io_ret None) ;;
     match parsed with
     | Some items => io_ret items
     | None => io_ret (map PStr (split_requirements response_text))
     end)
    any_Exception
    (fun e =>
       run io_emit (Print (py "요구조건 추출 중 오류 발생: " ++ exn_msg e)) ;;
       io_ret []).

Definition requirements_text (requirements : list pyval) : pystr :=
  unlines
    (map (fun ir => str_of_int (fst ir + 1) ++ py ". " ++ py_format (snd ir))
         (enumerate 0 requirements)).

Definition analyze_compliance_prompt (requirements : list pyval) (submission : pystr) : pystr :=
  unlines
    [ [];
      py "        다음 수행평가 요구조건과 제출물을 분석해주세요.";
      py "        ";
      py "        요구조건:";
      py "        " ] ++
  requirements_text requirements ++
  unlines
    [ [];
      py "        ";
      py "        제출물:";
      py "        " ] ++
  submission ++
  unlines
    [ [];
      py "        ";
      py "        다음 JSON 형태로 분석 결과를 반환해주세요:";
      py "        {";
      (py "            " ++ [dq] ++ py "overall_score" ++ [dq] ++ py ": 0-100,");
      (py "            " ++ [dq] ++ py "requirements_analysis" ++ [dq] ++ py ": [");
      py "                {";
      (py "                    " ++ [dq] ++ py "requirement" ++ [dq] ++ py ": " ++ [dq] ++ py "요구조건 내용" ++ [dq] ++ py ",");
      (py "                    " ++ [dq] ++ py "satisfied" ++ [dq] ++ py ": true/false,");
      (py "                    " ++ [dq] ++ py "score" ++ [dq] ++ py ": 0-100,");
      (py "                    " ++ [dq] ++ py "feedback" ++ [dq] ++ py ": " ++ [dq] ++ py "구체적인 피드백" ++ [dq] ++ py ",");
      (py "                    " ++ [dq] ++ py "suggestions" ++ [dq] ++ py ": [" ++ [dq] ++ py "개선 제안1" ++ [dq] ++ py ", " ++ [dq] ++ py "개선 제안2" ++ [dq] ++ py "]");
      py "                }";
      py "            ],";
      (py "            " ++ [dq] ++ py "general_feedback" ++ [dq] ++ py ": " ++ [dq] ++ py "전체적인 피드백" ++ [dq] ++ py ",");
      (py "            " ++ [dq] ++ py "improvement_suggestions" ++ [dq] ++ py ": [" ++ [dq] ++ py "전체 개선 제안1" ++ [dq] ++ py ", " ++ [dq] ++ py "전체 개선 제안2" ++ [dq] ++ py "]");
      py "        }";
      py "        " ].

(** The dictionary of lines 122-135, returned when the answer is not JSON. *)
Definition default_analysis (requirements : list pyval) : pyval :=
  PDict
    [ (py "overall_score", PInt 70);
      (py "requirements_analysis",
       PList
         (map (fun req =>
                 PDict
                   [ (py "requirement", req);
                     (py "satisfied", PBool true);
                     (py "score", PInt 70);
                     (py "feedback", PStr (py "기본적인 요구사항 충족"));
                     (py "suggestions", PList [PStr (py "더 구체적인 내용 추가 필요")]) ])
              requirements));
      (py "general_feedback",
       PStr (py "전반적으로 요구사항을 충족하지만 개선의 여지가 있습니다."));
      (py "improvement_suggestions",
       PList [PStr (py "더 구체적인 예시 추가"); PStr (py "논리적 구조 개선")]) ].

(** The dictionary of lines 139-144, returned when the call fails. *)
Definition error_analysis : pyval :=
  PDict
    [ (py "overall_score", PInt 0);
      (py "requirements_analysis", PList []);
      (py "general_feedback", PStr (py "분석 중 오류가 발생했습니다."));
      (py "improvement_suggestions", PList []) ].

(** [analyze_compliance(self, requirements, submission)] *)
Definition analyze_compliance (self : t) (requirements : list pyval) (submission : pystr)
  : io pyval :=
  let prompt := analyze_compliance_prompt requirements submission in
  io_try
    (do response_text <- call_model self prompt ;;
     io_try
       (do result <- io_lift (json_loads response_text) ;;
        io_ret result)
       is_JSONDecodeError
       (fun _ => io_ret (default_analysis requirements)))
    any_Exception
    (fun e =>
       run io_emit (Print (py "분석 중 오류 발생: " ++ exn_msg e)) ;;
       io_ret error_analysis).

(** The body of the [for suggestion in ...] loops: [report += f"..."]. *)
Definition add_suggestions (prefix : pystr) (report : pystr) (suggestions : list pyval) : pystr :=
  fold_left (fun report suggestion => report ++ prefix ++ py_format suggestion ++ [nl])
            suggestions report.

(** One pass of the loop over [requirements_analysis] (lines 165-174). *)
Definition add_analysis (report : pystr) (i : Z) (analysis : pyval) : pyresult pystr :=
  satisfied <- py_get analysis (py "satisfied") (PBool false) ;;
  let status := if py_truth satisfied then py "✅ 만족" else py "❌ 미만족" in
  requirement <- py_get analysis (py "requirement") (PStr (py "N/A")) ;;
  score <- py_get analysis (py "score") (PInt 0) ;;
  feedback <- py_get analysis (py "feedback") (PStr (py "N/A")) ;;
  let report :=
    report ++
    unlines [ []; py "### " ] ++ str_of_int i ++ py ". " ++ py_format requirement ++
    unlines [ []; py "- **상태**: " ] ++ status ++
    unlines [ []; py "- **점수**: " ] ++ py_format score ++
    unlines [ py "/100"; py "- **피드백**: " ] ++ py_format feedback ++
    unlines [ []; py "- **개선 제안**:"; [] ] in
  suggestions <- py_get analysis (py "suggestions") (PList []) ;;
  suggestions <- py_iter suggestions ;;
  Returned (add_suggestions (py "  - ") report suggestions).

Fixpoint add_analyses (report : pystr) (items : list (Z * pyval)) : pyresult pystr :=
  match items with
  | [] => Returned report
  | (i, analysis) :: items' =>
      report <- add_analysis report i analysis ;;
      add_analyses report items'
  end.

(** [generate_report(self, analysis_result)] *)
Definition generate_report (self : t) (analysis_result : pyval) : pyresult pystr :=
  overall_score <- py_get analysis_result (py "overall_score") (PInt 0) ;;
  let report :=
    unlines [ []; py "# 수행평가 검사 보고서"; []; py "## 📊 전체 만족도: " ] ++
    py_format overall_score ++
    unlines [ py "/100"; []; py "## 📋 항목별 분석 결과"; [] ] in
  requirements_analysis <- py_get analysis_result (py "requirements_analysis") (PList []) ;;
  analyses <- py_iter requirements_analysis ;;
  report <- add_analyses report (enumerate 1 analyses) ;;
  general_feedback <- py_get analysis_result (py "general_feedback") (PStr (py "N/A")) ;;
  let report :=
    report ++
    unlines [ []; py "## 💡 전체 피드백"; [] ] ++
    py_format general_feedback ++
    unlines [ []; []; py "## 🔧 개선 제안"; [] ] in
  improvement_suggestions <-
    py_get analysis_result (py "improvement_suggestions") (PList []) ;;
  improvement_suggestions <- py_iter improvement_suggestions ;;
  Returned (add_suggestions (py "- ") report improvement_suggestions).

End Methods.

End TextProcessor.

(** ** [image_processor.py] *)

Module ImageProcessor.

(** [self], with the OCR pipeline of lines 49-56 ([Image.open], the resize
    of [_preprocess_image], [pytesseract.image_to_string] with
    [lang='kor+eng']) as an oracle: the recognised text, or the exception
    one of these steps raises. *)
Record t : Type := { image_to_string : list N -> pyresult pystr }.

(** [_clean_text(self, text)] *)
Definition _clean_text (text : pystr) : pystr :=
  if str_eqb text [] then py "이미지에서 텍스트를 추출할 수 없습니다."
  else
    let lines := split nl text in
    let cleaned_lines :=
      fold_left
        (fun cleaned_lines line =>
           let line := strip line in
           if negb (str_eqb line []) then cleaned_lines ++ [line] else cleaned_lines)
        lines [] in
    let cleaned_text := join [nl] cleaned_lines in
    cleaned_text.

(** [extract_text_from_image(self, image_file)] *)
Definition extract_text_from_image (self : t) (image_file : list N) : io pystr :=
  io_try
    (do text <- io_lift (image_to_string self image_file) ;;
     let cleaned_text := _clean_text text in
     io_ret cleaned_text)
    any_Exception
    (fun e =>
       run io_emit (Print (py "이미지에서 텍스트 추출 중 오류 발생: " ++ exn_msg e)) ;;
       io_ret (py "이미지 처리 중 오류가 발생했습니다: " ++ exn_msg e)).

End ImageProcessor.

(** ** [email_sender.py] *)

Module EmailSender.

(** *** The fragment of [re] that [validate_email] uses *)

Inductive class_item : Type :=
| Range (lo hi : char)     (* a-z *)
| Single (c : char).

Definition in_item (c : char) (i : class_item) : bool :=
  match i with
  | Range lo hi => ((lo <=? c) && (c <=? hi))%N
  | Single x => char_eqb c x
  end.

(** [c] matches the bracket expression *)
Definition in_class (cls : list class_item) (c : char) : bool :=
  existsb (in_item c) cls.

Inductive atom : Type :=
| Bol                                       (* ^ *)
| Eol                                       (* $ *)
| Lit (c : char)                            (* an escaped or plain character *)
| Repeat (cls : list class_item) (min : nat).  (* [...]{min,} ; [...]+ is {1,} *)

Definition regex := list atom.

(** [$] without [re.MULTILINE]: at the end of the string, and also just
    before a newline that is the last character of the string. *)
Definition at_eol (rest : pystr) : bool :=
  match rest with
  | [] => true
  | [c] => char_eqb c nl
  | _ => false
  end.

(** [cls{need,}] followed by the continuation [k]: some number of
    characters of the class, at least [need], after which [k] succeeds. *)
Fixpoint repeat_then (cls : list class_item) (k : nat -> pystr -> bool)
         (need : nat) (pos : nat) (s : pystr) : bool :=
  match need with O => k pos s | S _ => false end ||
  match s with
  | [] => false
  | c :: s' => in_class cls c && repeat_then cls k (pred need) (S pos) s'
  end.

(** Does [re] match at position [pos], where [s] is the rest of the string? *)
Fixpoint match_here (re : regex) (pos : nat) (s : pystr) : bool :=
  match re with
  | [] => true
  | Bol :: re' => (pos =? 0) && match_here re' pos s
  | Eol :: re' => at_eol s && match_here re' pos s
  | Lit c :: re' =>
      match s with
      | [] => false
      | c' :: s' => char_eqb c' c && match_here re' (S pos) s'
      end
  | Repeat cls min :: re' => repeat_then cls (match_here re') min pos s
  end.

(** [re.match(pattern, s) is not None]: a match that starts at position 0. *)
Definition re_match (pattern : regex) (s : pystr) : bool := match_here pattern 0 s.

Definition chr (a : ascii) : char := N_of_ascii a.

Definition alnum : list class_item :=
  [ Range (chr "a") (chr "z"); Range (chr "A") (chr "Z"); Range (chr "0") (chr "9") ].

(** [r'^[a-zA-Z0-9._%+-]+@[a-zA-Z0-9.-]+\.[a-zA-Z]{2,}$'] *)
Definition pattern : regex :=
  [ Bol;
    Repeat (alnum ++ [ Single (chr "."); Single (chr "_"); Single (chr "%");
                       Single (chr "+"); Single (chr "-") ]) 1;
    Lit (chr "@");
    Repeat (alnum ++ [ Single (chr "."); Single (chr "-") ]) 1;
    Lit (chr ".");
    Repeat [ Range (chr "a") (chr "z"); Range (chr "A") (chr "Z") ] 2;
    Eol ].

(** [validate_email(self, email)] *)
Definition validate_email (email : pystr) : bool := re_match pattern email.

(** *** The object and the mail relay *)

(** [self] after [__init__]: the two [os.getenv] results are [None] when the
    variable is not set. *)
Record t : Type := {
  smtp_server : pystr;
  smtp_port : Z;
  sender_email : option pystr;
  sender_password : option pystr
}.

(** [not value] for a value that is [None] or a [str] *)
Definition not_set (value : option pystr) : bool :=
  match value with
  | None => true
  | Some s => str_eqb s []
  end.

Definition str_or_empty (value : option pystr) : pystr :=
  match value with
  | None => []
  | Some s => s
  end.

(** [__init__(self)], given the environment's two variables *)
Definition init (EMAIL_ADDRESS EMAIL_PASSWORD : option pystr) : io t :=
  let self :=
    {| smtp_server := py "smtp.gmail.com";
       smtp_port := 587;
       sender_email := EMAIL_ADDRESS;
       sender_password := EMAIL_PASSWORD |} in
  if not_set (sender_email self) || not_set (sender_password self)
  then
    run io_emit (Print (py "이메일 전송을 위해서는 EMAIL_ADDRESS와 EMAIL_PASSWORD 환경 변수를 설정해야 합니다.")) ;;
    io_ret self
  else io_ret self.

(** The outside world of one delivery: for each step, the exception it
    raises, if any.  [build] is the construction of the MIME message by the
    [email] package (lines 58-68); the others are the calls on the
    [smtplib.SMTP] session, [quit] being the [QUIT] its [__exit__] sends. *)
Record relay : Type := {
  build : option exn;
  connect : option exn;
  starttls : option exn;
  login : option exn;
  send_message : option exn;
  quit : option exn
}.

Definition outcome (answer : option exn) : pyresult unit :=
  match answer with
  | None => Returned tt
  | Some e => Raised e
  end.

(** A call on the relay: it is attempted, then it returns or raises. *)
Definition attempt (ev : event) (answer : option exn) : io unit :=
  (outcome answer, [ev]).

(** [with enter as server: body]: when [enter] returns, [body] runs and
    then [leave] runs whatever [body] did; an exception of [leave] replaces
    the outcome of [body]. *)
Definition io_with {A} (enter : io unit) (body : io A) (leave : io unit) : io A :=
  do _ <- enter ;;
  match body, leave with
  | (r, t), (Returned _, t') => (r, t ++ t')
  | (_, t), (Raised e, t') => (Raised e, t ++ t')
  end.

(** Lines 93-104 of [_create_html_email]: the substring replacements. *)
Definition html_content_of (report_content : pystr) : pystr :=
  let html_content := report_content in
  let html_content :=
    replace [nl] (py "</h1>" ++ [nl]) (replace (py "# ") (py "<h1>") html_content) in
  let html_content :=
    replace [nl] (py "</h2>" ++ [nl]) (replace (py "## ") (py "<h2>") html_content) in
  let html_content :=
    replace [nl] (py "</h3>" ++ [nl]) (replace (py "### ") (py "<h3>") html_content) in
  let html_content :=
    replace (py "**") (py "</strong>") (replace (py "**") (py "<strong>") html_content) in
  let html_content := replace [nl] (py "<br>" ++ [nl]) html_content in
  html_content.

(** [_create_html_email(self, report_content)] *)
Definition _create_html_email (report_content : pystr) : pystr :=
  let html_content := html_content_of report_content in
  unlines
    [ [];
      py "        <!DOCTYPE html>";
      py "        <html>";
      py "        <head>";
      (py "            <meta charset=" ++ [dq] ++ py "UTF-8" ++ [dq] ++ py ">");
      py "            <style>";
      py "                body {";
      py "                    font-family: Arial, sans-serif;";
      py "                    line-height: 1.6;";
      py "                    color: #333;";
      py "                    max-width: 800px;";
      py "                    margin: 0 auto;";
      py "                    padding: 20px;";
      py "                }";
      py "                h1, h2, h3 {";
      py "                    color: #2c3e50;";
      py "                    border-bottom: 2px solid #3498db;";
      py "                    padding-bottom: 10px;";
      py "                }";
      py "                .score {";
      py "                    background-color: #ecf0f1;";
      py "                    padding: 10px;";
      py "                    border-radius: 5px;";
      py "                    margin: 10px 0;";
      py "                }";
      py "                .feedback {";
      py "                    background-color: #f8f9fa;";
      py "                    padding: 15px;";
      py "                    border-left: 4px solid #3498db;";
      py "                    margin: 10px 0;";
      py "                }";
      py "                .suggestion {";
      py "                    background-color: #fff3cd;";
      py "                    padding: 10px;";
      py "                    border-radius: 5px;";
      py "                    margin: 5px 0;";
      py "                }";
      py "            </style>";
      py "        </head>";
      py "        <body>";
      py "            <h1>📋 수행평가 검사 보고서</h1>";
      py "            " ] ++
  html_content ++
  unlines
    [ [];
      py "            <hr>";
      (py "            <p style=" ++ [dq] ++ py "color: #7f8c8d; font-size: 12px;" ++ [dq] ++ py ">");
      py "                이 보고서는 CheckMate 웹 앱을 통해 자동으로 생성되었습니다.";
      py "            </p>";
      py "        </body>";
      py "        </html>";
      py "        " ].

(** [send_report_email(self, recipient_email, report_content, subject)] *)
Definition send_report_email (self : t) (world : relay)
           (recipient_email report_content subject : pystr) : io bool :=
  if not_set (sender_email self) || not_set (sender_password self)
  then
    run io_emit (StError (py "이메일 전송을 위한 설정이 완료되지 않았습니다.")) ;;
    io_ret false
  else
    io_try
      (let html_content := _create_html_email report_content in
       do _ <- io_lift (outcome (build world)) ;;
       do _ <-
         io_with
           (attempt (SmtpConnect (smtp_server self) (smtp_port self)) (connect world))
           (do _ <- attempt SmtpStartTls (starttls world) ;;
            do _ <- attempt (SmtpLogin (str_or_empty (sender_email self))
                                       (str_or_empty (sender_password self)))
                            (login world) ;;
            attempt (SmtpSendMessage subject (str_or_empty (sender_email self))
                                     recipient_email html_content)
                    (send_message world))
           (attempt SmtpQuit (quit world)) ;;
       io_ret true)
      any_Exception
      (fun e =>
         run io_emit (Print (py "이메일 전송 중 오류 발생: " ++ exn_msg e)) ;;
         io_ret false).

End EmailSender.

(** ** The properties, as the specification words them *)

Module Spec.

Import TextProcessor EmailSender.

(** [obj[key]] for a key that is present *)
Definition field (obj : pyval) (key : string) : option pyval :=
  match obj with
  | PDict items => lookup (py key) items
  | _ => None
  end.

(** The result of the call-failure tier: score 0, no analyses, the generic
    failure feedback, no suggestions. *)
Definition call_failure_result (result : pyval) : Prop :=
  field result "overall_score" = Some (PInt 0) /\
  field result "requirements_analysis" = Some (PList []) /\
  field result "general_feedback" = Some (PStr (py "분석 중 오류가 발생했습니다.")) /\
  field result "improvement_suggestions" = Some (PList []).

(** The result of the parse-failure tier: score 70 and one synthetic entry
    per requirement, in order. *)
Definition parse_failure_result (requirements : list pyval) (result : pyval) : Prop :=
  field result "overall_score" = Some (PInt 70) /\
  exists entries,
    field result "requirements_analysis" = Some (PList entries) /\
    List.length entries = List.length requirements /\
    forall i req,
      nth_error requirements i = Some req ->
      exists entry,
        nth_error entries i = Some entry /\
        field entry "requirement" = Some req /\
        field entry "satisfied" = Some (PBool true) /\
        field entry "score" = Some (PInt 70).

(** The line-splitting fallback in the specification's words: the trimmed
    lines, each with at most one leading marker removed as a prefix, the
    empty ones discarded. *)
Definition markers : list pystr := [ py "- "; py "* "; py "1. "; py "2. "; py "3. " ].

Definition strip_one_marker (line : pystr) : pystr :=
  match find (fun m => starts_with m line) markers with
  | Some m => skipn (List.length m) line
  | None => line
  end.

Definition spec_split_requirements (response_text : pystr) : list pystr :=
  filter nonempty
         (map (fun line => strip_one_marker (strip line)) (split nl response_text)).

(** The documented shape of an address:
    [[A-Za-z0-9._%+-]+ @ [A-Za-z0-9.-]+ . [A-Za-z]{2,}] *)
Definition star : char := 42%N.   (* the asterisk of the bold marker *)

Definition smtp_event (ev : event) : bool :=
  match ev with
  | SmtpConnect _ _ | SmtpStartTls | SmtpLogin _ _ | SmtpSendMessage _ _ _ _ | SmtpQuit => true
  | _ => false
  end.

Definition local_char : char -> bool :=
  in_class [ Range (chr "A") (chr "Z"); Range (chr "a") (chr "z"); Range (chr "0") (chr "9");
             Single (chr "."); Single (chr "_"); Single (chr "%"); Single (chr "+");
             Single (chr "-") ].

Definition domain_char : char -> bool :=
  in_class [ Range (chr "A") (chr "Z"); Range (chr "a") (chr "z"); Range (chr "0") (chr "9");
             Single (chr "."); Single (chr "-") ].

Definition letter : char -> bool :=
  in_class [ Range (chr "A") (chr "Z"); Range (chr "a") (chr "z") ].

Definition email_shape (s : pystr) : Prop :=
  exists local domain tld,
    s = local ++ py "@" ++ domain ++ py "." ++ tld /\
    1 <= List.length local /\ forallb local_char local = true /\
    1 <= List.length domain /\ forallb domain_char domain = true /\
    2 <= List.length tld /\ forallb letter tld = true.

(** The analysis schema the prompt of [analyze_compliance] asks for
    (lines 97-110), as typed records, and the dictionaries that carry them. *)
Record RequirementAnalysis : Type := {
  requirement : pystr;
  satisfied : bool;
  score : Z;
  feedback : pystr;
  suggestions : list pystr
}.

Record AnalysisResult : Type := {
  overall_score : Z;
  requirements_analysis : list RequirementAnalysis;
  general_feedback : pystr;
  improvement_suggestions : list pystr
}.

Definition items_of_analysis (a : RequirementAnalysis) : list (pystr * pyval) :=
  [ (py "requirement", PStr (requirement a));
    (py "satisfied", PBool (satisfied a));
    (py "score", PInt (score a));
    (py "feedback", PStr (feedback a));
    (py "suggestions", PList (map PStr (suggestions a))) ].

Definition dict_of_analysis (a : RequirementAnalysis) : pyval :=
  PDict (items_of_analysis a).

Definition items_of_result (r : AnalysisResult) : list (pystr * pyval) :=
  [ (py "overall_score", PInt (overall_score r));
    (py "requirements_analysis", PList (map dict_of_analysis (requirements_analysis r)));
    (py "general_feedback", PStr (general_feedback r));
    (py "improvement_suggestions", PList (map PStr (improvement_suggestions r))) ].

Definition dict_of_result (r : AnalysisResult) : pyval :=
  PDict (items_of_result r).

(** The subsection of one analysis, numbered [i]. *)
Definition report_item (i : Z) (a : RequirementAnalysis) : pystr :=
  unlines [ [];
            py "### " ++ str_of_int i ++ py ". " ++ requirement a;
            py "- **상태**: " ++ (if satisfied a then py "✅ 만족" else py "❌ 미만족");
            py "- **점수**: " ++ str_of_int (score a) ++ py "/100";
            py "- **피드백**: " ++ feedback a;
            py "- **개선 제안**:";
            [] ] ++
  List.concat (map (fun s => py "  - " ++ s ++ [nl]) (suggestions a)).

Definition report_items (i : Z) (analyses : list RequirementAnalysis) : pystr :=
  List.concat (map (fun ia => report_item (fst ia) (snd ia)) (enumerate i analyses)).

(** The report of a typed result: the title, the overall-score line, the
    heading of the analyses and one subsection for each, the feedback
    section, and the suggestions section. *)
Definition report_of (r : AnalysisResult) : pystr :=
  unlines [ []; py "# 수행평가 검사 보고서"; []; py "## 📊 전체 만족도: " ] ++
  str_of_int (overall_score r) ++
  unlines [ py "/100"; []; py "## 📋 항목별 분석 결과"; [] ] ++
  report_items 1 (requirements_analysis r) ++
  unlines [ []; py "## 💡 전체 피드백"; general_feedback r; []; py "## 🔧 개선 제안"; [] ] ++
  List.concat (map (fun s => py "- " ++ s ++ [nl]) (improvement_suggestions r)).

(** The report of a result without analyses: the lines around the
    subsections, with nothing between the heading of the analyses and the
    feedback section. *)
Definition report_without_items (overall : Z) (general : pystr) (improvements : list pystr)
  : pystr :=
  unlines [ [];
            py "# 수행평가 검사 보고서";
            [];
            py "## 📊 전체 만족도: " ++ str_of_int overall ++ py "/100";
            [];
            py "## 📋 항목별 분석 결과";
            [];
            py "## 💡 전체 피드백";
            general;
            [];
            py "## 🔧 개선 제안";
            [] ] ++
  List.concat (map (fun s => py "- " ++ s ++ [nl]) improvements).

(** Objects a [for] loop accepts. *)
Definition iterable (obj : pyval) : bool :=
  match obj with
  | PList _ | PStr _ | PDict _ => true
  | _ => false
  end.

Definition absent_or (p : pyval -> bool) (key : string) (items : list (pystr * pyval)) : bool :=
  match lookup (py key) items with
  | Some v => p v
  | None => true
  end.

(** An entry of [requirements_analysis] that is a dict whose [suggestions],
    when present, can be iterated. *)
Definition entry_ok (entry : pyval) : bool :=
  match entry with
  | PDict items => absent_or iterable "suggestions" items
  | _ => false
  end.

Definition entries_ok (obj : pyval) : bool :=
  match py_iter obj with
  | Returned entries => forallb entry_ok entries
  | Raised _ => false
  end.

(** An analysis dictionary [generate_report] can render: what it iterates
    over can be iterated, and the entries are dicts. *)
Definition renderable (items : list (pystr * pyval)) : bool :=
  absent_or entries_ok "requirements_analysis" items &&
  absent_or iterable "improvement_suggestions" items.

(** The claim's own condition: the entries of [requirements_analysis], when
    it is present, are dicts. *)
Definition entries_are_dicts (items : list (pystr * pyval)) : bool :=
  match lookup (py "requirements_analysis") items with
  | Some (PList entries) =>
      forallb (fun e => match e with PDict _ => true | _ => false end) entries
  | Some _ => false
  | None => true
  end.

(** A missing key, bound to its default. *)
Definition set_default (key : string) (default : pyval) (items : list (pystr * pyval))
  : list (pystr * pyval) :=
  match lookup (py key) items with
  | Some _ => items
  | None => items ++ [(py key, default)]
  end.

Definition entry_with_defaults (entry : pyval) : pyval :=
  match entry with
  | PDict items =>
      PDict (set_default "suggestions" (PList [])
               (set_default "feedback" (PStr (py "N/A"))
                  (set_default "score" (PInt 0)
                     (set_default "requirement" (PStr (py "N/A"))
                        (set_default "satisfied" (PBool false) items)))))
  | _ => entry
  end.

Definition entries_with_defaults (kv : pystr * pyval) : pystr * pyval :=
  match kv with
  | (k, PList entries) =>
      if str_eqb k (py "requirements_analysis")
      then (k, PList (map entry_with_defaults entries))
      else kv
  | _ => kv
  end.

Definition with_defaults (items : list (pystr * pyval)) : list (pystr * pyval) :=
  set_default "improvement_suggestions" (PList [])
    (set_default "general_feedback" (PStr (py "N/A"))
       (set_default "requirements_analysis" (PList [])
          (set_default "overall_score" (PInt 0)
             (map entries_with_defaults items)))).

End Spec.

(** ** Recorded answers of the outside world, for the examples *)

Module Recorded.

(** [json.loads] replayed from a table of recorded answers; a text that is
    not in the table is one the decoder rejected. *)
Definition loads_from (table : list (pystr * pyval)) (text : pystr) : pyresult pyval :=
  match find (fun kv => str_eqb (fst kv) text) table with
  | Some kv => Returned (snd kv)
  | None => Raised (Exn JSONDecodeError (py "Expecting value: line 1 column 1 (char 0)"))
  end.

(** The texts [["a", "b", "a"]] and [{"overall_score": 90}], and what
    [json.loads] made of them. *)
Definition array_text : pystr :=
  py "[" ++ [dq] ++ py "a" ++ [dq] ++ py ", " ++ [dq] ++ py "b" ++ [dq] ++ py ", " ++
  [dq] ++ py "a" ++ [dq] ++ py "]".

Definition object_text : pystr :=
  py "{" ++ [dq] ++ py "overall_score" ++ [dq] ++ py ": 90}".

Definition answers : list (pystr * pyval) :=
  [ (array_text, PList [PStr (py "a"); PStr (py "b"); PStr (py "a")]);
    (object_text, PDict [(py "overall_score", PInt 90)]) ].

(** [repr] of a [str] without quotes, backslashes or unprintable characters *)
Definition quote (s : pystr) : pystr := py "'" ++ s ++ py "'".

Definition runtime : PyRuntime :=
  {| json_loads := loads_from answers; str_repr := quote |}.

(** A model that answers every prompt with [text], and one that fails. *)
Definition answering (text : pystr) : TextProcessor.t :=
  {| TextProcessor.generate_content := fun _ => Returned text |}.

Definition failing : TextProcessor.t :=
  {| TextProcessor.generate_content :=
       fun _ => Raised (Exn (OtherException (py "ResourceExhausted")) (py "429 quota exceeded")) |}.

(** An OCR engine that recognises [text] in every image. *)
Definition recognising (text : pystr) : ImageProcessor.t :=
  {| ImageProcessor.image_to_string := fun _ => Returned text |}.

(** An answer of the model in which [improvement_suggestions] is [null]. *)
Definition null_suggestions : list (pystr * pyval) :=
  [ (py "overall_score", PInt 80);
    (py "requirements_analysis", PList []);
    (py "general_feedback", PStr (py "ok"));
    (py "improvement_suggestions", PNone) ].

(** An answer of the model with fields missing at both levels. *)
Definition sparse : list (pystr * pyval) :=
  [ (py "requirements_analysis",
     PList [ PDict [ (py "requirement", PStr (py "3 pages minimum")) ]; PDict [] ]) ].

Definition configured : EmailSender.t :=
  {| EmailSender.smtp_server := py "smtp.gmail.com";
     EmailSender.smtp_port := 587;
     EmailSender.sender_email := Some (py "checkmate@gmail.com");
     EmailSender.sender_password := Some (py "app-password") |}.

Definition unconfigured : EmailSender.t :=
  {| EmailSender.smtp_server := py "smtp.gmail.com";
     EmailSender.smtp_port := 587;
     EmailSender.sender_email := Some (py "checkmate@gmail.com");
     EmailSender.sender_password := None |}.

Definition healthy : EmailSender.relay :=
  {| EmailSender.build := None; EmailSender.connect := None; EmailSender.starttls := None;
     EmailSender.login := None; EmailSender.send_message := None; EmailSender.quit := None |}.

Definition rejecting_login : EmailSender.relay :=
  {| EmailSender.build := None; EmailSender.connect := None; EmailSender.starttls := None;
     EmailSender.login :=
       Some (Exn (OtherException (py "SMTPAuthenticationError")) (py "(535, b'5.7.8 BadCredentials')"));
     EmailSender.send_message := None; EmailSender.quit := None |}.

End Recorded.

(** ** [text_processor.py], [__init__], and [app.py] *)

Module App.

Import TextProcessor EmailSender.

(** [TextProcessor.__init__(self, api_key)].  [genai] stands for
    [genai.configure(api_key=...)] followed by
    [genai.GenerativeModel('gemini-2.0-flash-exp')] (lines 31-32): the
    object holding the model, or the exception the library raises. *)
Definition __init__ (genai : pystr -> pyresult TextProcessor.t)
           (GOOGLE_API_KEY : option pystr) (api_key : option pystr)
  : pyresult TextProcessor.t :=
  let api_key :=
    match api_key with
    | None => GOOGLE_API_KEY
    | Some _ => api_key
    end in
  if not_set api_key
  then Raised (Exn (OtherException (py "ValueError"))
                   (py "GOOGLE_API_KEY가 설정되지 않았습니다."))
  else genai (str_or_empty api_key).

(** What the page shows and does: the effects of the utility classes
    ([st.error] among them) and the other Streamlit calls of the handlers. *)
Inductive ui_event : Type :=
| Lib (ev : event)
| StInfo (msg : pystr)
| StSuccess (msg : pystr)
| StSpinner (msg : pystr).

(** The entries of [st.session_state] the handlers use; [None] is a key
    that is not in the session. *)
Record session : Type := {
  api_key : option pystr;
  analysis_result : option pyval;
  report : option pystr;
  requirements : option (list pyval);
  submission_text : option pystr
}.

(** [st.error(f"... {str(e)}")] of the handler's [except Exception] *)
Definition analysis_error (e : exn) : ui_event :=
  Lib (StError (py "분석 중 오류가 발생했습니다: " ++ exn_msg e)).

Section Handlers.
Context {RT : PyRuntime}.

(** The body of [if st.button("🚀 검사 시작", ...)] in [show_analysis_tab]
    (lines 238-279): the session after the click and what the page did. *)
Definition run_check (genai : pystr -> pyresult TextProcessor.t)
           (GOOGLE_API_KEY : option pystr) (state : session)
           (requirements_text submission_text : pystr) : session * list ui_event :=
  if str_eqb (strip requirements_text) [] || str_eqb (strip submission_text) []
  then (state, [Lib (StError (py "⚠️ 요구조건과 결과물을 모두 입력해주세요."))])
  else
    let spinner := StSpinner (py "AI가 분석 중입니다...") in
    let current_api_key := api_key state in
    if not_set current_api_key
    then (state,
          [spinner;
           Lib (StError (py "⚠️ API 키가 설정되지 않았습니다. 사이드바에서 API 키를 입력해주세요."))])
    else
      match __init__ genai GOOGLE_API_KEY current_api_key with
      | Raised e => (state, [spinner; analysis_error e])
      | Returned text_processor =>
          let info1 := StInfo (py "📋 요구조건을 분석하고 있습니다...") in
          match extract_requirements text_processor requirements_text with
          | (Raised e, t1) => (state, [spinner; info1] ++ map Lib t1 ++ [analysis_error e])
          | (Returned [], t1) =>
              (state,
               [spinner; info1] ++ map Lib t1 ++
               [Lib (StError (py "요구조건을 추출할 수 없습니다. 텍스트를 다시 확인해주세요."))])
          | (Returned requirements, t1) =>
              let info2 := StInfo (py "🔍 결과물을 분석하고 있습니다...") in
              match analyze_compliance text_processor requirements submission_text with
              | (Raised e, t2) =>
                  (state,
                   [spinner; info1] ++ map Lib t1 ++ [info2] ++ map Lib t2 ++
                   [analysis_error e])
              | (Returned result, t2) =>
                  let info3 := StInfo (py "📊 보고서를 생성하고 있습니다...") in
                  match generate_report text_processor result with
                  | Raised e =>
                      (state,
                       [spinner; info1] ++ map Lib t1 ++ [info2] ++ map Lib t2 ++
                       [info3; analysis_error e])
                  | Returned rendered =>
                      ({| api_key := api_key state;
                          analysis_result := Some result;
                          report := Some rendered;
                          requirements := Some requirements;
                          submission_text := Some submission_text |},
                       [spinner; info1] ++ map Lib t1 ++ [info2] ++ map Lib t2 ++
                       [info3;
                        StSuccess (py "✅ 분석이 완료되었습니다! '결과 보기' 탭에서 확인하세요.")])
                  end
              end
          end
      end.

End Handlers.

(** The body of [if st.button("📤 이메일 전송", ...)] in [show_share_tab]
    (lines 411-432), reached when ['report'] is in the session: [rendered]
    is [st.session_state.report]. *)
Definition send_clicked (EMAIL_ADDRESS EMAIL_PASSWORD : option pystr) (world : relay)
           (rendered recipient_email email_subject : pystr)
  : pyresult unit * list ui_event :=
  if str_eqb recipient_email []
  then (Returned tt, [Lib (StError (py "수신자 이메일 주소를 입력해주세요."))])
  else
    match init EMAIL_ADDRESS EMAIL_PASSWORD with
    | (Raised e, t0) => (Raised e, map Lib t0)
    | (Returned email_sender, t0) =>
        if negb (validate_email recipient_email)
        then (Returned tt,
              map Lib t0 ++ [Lib (StError (py "올바른 이메일 주소 형식이 아닙니다."))])
        else
          let spinner := StSpinner (py "이메일을 전송하고 있습니다...") in
          match send_report_email email_sender world recipient_email rendered email_subject with
          | (Raised e, t) => (Raised e, map Lib t0 ++ [spinner] ++ map Lib t)
          | (Returned success, t) =>
              (Returned tt,
               map Lib t0 ++ [spinner] ++ map Lib t ++
               [if success
                then StSuccess (py "✅ 이메일이 성공적으로 전송되었습니다!")
                else Lib (StError (py "❌ 이메일 전송에 실패했습니다. 설정을 확인해주세요."))])
          end
    end.

End App.

(** ** Vocabulary of the further properties *)

Module Observe.

Import EmailSender App.

Definition is_model_call (ev : event) : bool :=
  match ev with
  | GenerateContent _ => true
  | _ => false
  end.

(** How many times the generative model was called. *)
Definition model_calls (t : list event) : nat := List.length (filter is_model_call t).

(** The effects of the utility classes among what the page did. *)
Fixpoint lib_events (t : list ui_event) : list event :=
  match t with
  | [] => []
  | Lib ev :: t' => ev :: lib_events t'
  | _ :: t' => lib_events t'
  end.

Definition is_login (ev : event) : bool :=
  match ev with
  | SmtpLogin _ _ => true
  | _ => false
  end.

Definition is_send (ev : event) : bool :=
  match ev with
  | SmtpSendMessage _ _ _ _ => true
  | _ => false
  end.

Definition is_quit (ev : event) : bool :=
  match ev with
  | SmtpQuit => true
  | _ => false
  end.


Definition configured (self : EmailSender.t) : bool :=
  negb (not_set (sender_email self) || not_set (sender_password self)).

(** A requirement as the line-splitting fallback returns it: not empty, on
    one line, without whitespace at its end, and not starting with a
    character of the last set stripped. *)
Definition tidy_requirement (r : pystr) : Prop :=
  r <> [] /\ ~ In nl r /\ is_space (last r 0%N) = false /\
  mem (hd 0%N r) (py "3. ") = false.

(** A line as [_clean_text] keeps it: not empty, without a newline, and
    with no whitespace at either end. *)
Definition clean_line (line : pystr) : Prop :=
  line <> [] /\ ~ In nl line /\ is_space (hd 0%N line) = false /\
  is_space (last line 0%N) = false.

Definition is_ascii (c : char) : bool := (c <? 128)%N.

Definition at_sign : char := 64%N.

End Observe.

(** ** Further recorded answers, for the examples *)

Module Samples.

(** The exception [Recorded.failing] raises. *)
Definition quota_exceeded : exn :=
  Exn (OtherException (py "ResourceExhausted")) (py "429 quota exceeded").

(** An OCR pipeline without its engine. *)
Definition no_engine : exn :=
  Exn (OtherException (py "TesseractNotFoundError")) (py "tesseract is not installed").

Definition broken_engine : ImageProcessor.t :=
  {| ImageProcessor.image_to_string := fun _ => Raised no_engine |}.

(** The library call that builds the model object, never failing here. *)
Definition genai_answering (text : pystr) (api_key : pystr) : pyresult TextProcessor.t :=
  Returned (Recorded.answering text).

Definition genai_failing (api_key : pystr) : pyresult TextProcessor.t :=
  Returned Recorded.failing.

(** A session right after the key was entered. *)
Definition fresh : App.session :=
  {| App.api_key := Some (py "AIza-key");
     App.analysis_result := None;
     App.report := None;
     App.requirements := None;
     App.submission_text := None |}.

End Samples.

(** * Properties *)

Import TextProcessor ImageProcessor EmailSender Spec.

Unset Implicit Arguments.

(** ** Tactics *)

(** The classes of the pattern list the two letter ranges in the other
    order. *)
Ltac swap_ranges c :=
  do 2 (match goal with
        | |- context [((?lo <=? c)%N && (c <=? ?hi)%N)] =>
            destruct ((lo <=? c)%N && (c <=? hi)%N)
        end);
  reflexivity.

(** Flattens the two sides of an equation between concatenations. *)
Ltac flatten_app :=
  cbn [unlines join app];
  repeat (match goal with
          | |- context [(?x ++ ?y) ++ ?z] => rewrite <- (app_assoc x y z)
          end; cbn [app]);
  rewrite ?app_nil_r.

(** Side condition of [get_default_set_default]: the two keys differ, or
    the two defaults agree. *)
Ltac default_side :=
  let H := fresh in
  intro H; first [ reflexivity | exfalso; vm_compute in H; discriminate H ].

(** ** Strings *)

Lemma char_eqb_eq (a b : char) : char_eqb a b = true <-> a = b.
Proof. unfold char_eqb. apply N.eqb_eq. Qed.

Lemma str_eqb_eq (a b : pystr) : str_eqb a b = true <-> a = b.
Proof.
  revert b. induction a as [|x a IH]; intros [|y b]; simpl; split; intro H;
    try reflexivity; try discriminate.
  - apply andb_true_iff in H. destruct H as [Hx Ha].
    apply char_eqb_eq in Hx. apply IH in Ha. congruence.
  - injection H as -> ->. apply andb_true_iff. split.
    + now apply char_eqb_eq.
    + now apply IH.
Qed.

Lemma str_eqb_refl (a : pystr) : str_eqb a a = true.
Proof. now apply str_eqb_eq. Qed.

(** ** The three tiers of [analyze_compliance] *)

Section Analysis.
Context {RT : PyRuntime}.

Lemma error_analysis_shape : call_failure_result error_analysis.
Proof. repeat split. Qed.

Lemma default_analysis_shape (requirements : list pyval) :
  parse_failure_result requirements (default_analysis requirements).
Proof.
  split; [reflexivity|].
  eexists. split; [reflexivity|]. split; [apply length_map|].
  intros i req Hi. eexists. split.
  - rewrite nth_error_map, Hi. reflexivity.
  - repeat split.
Qed.

(** C1. [analyze_compliance] always returns: the zero-valued result when the
    call to the model raises, the score-70 result with one synthetic entry
    per requirement when the answer is not JSON, and the decoded object
    itself, unexamined, when the answer is JSON. *)
Theorem analyze_compliance_three_tiers
        (self : TextProcessor.t) (requirements : list pyval) (submission : pystr) :
  let prompt := analyze_compliance_prompt requirements submission in
  let outcome := fst (analyze_compliance self requirements submission) in
  (exists result, outcome = Returned result) /\
  (forall e, generate_content self prompt = Raised e ->
     exists result, outcome = Returned result /\ call_failure_result result) /\
  (forall text e,
     generate_content self prompt = Returned text ->
     json_loads text = Raised e -> is_JSONDecodeError e = true ->
     exists result, outcome = Returned result /\
                    parse_failure_result requirements result) /\
  (forall text value,
     generate_content self prompt = Returned text ->
     json_loads text = Returned value ->
     outcome = Returned value).
Proof.
  intros prompt outcome. subst outcome prompt.
  unfold analyze_compliance, call_model.
  destruct (generate_content self (analyze_compliance_prompt requirements submission))
    as [text|e] eqn:Hcall; cbn.
  - destruct (json_loads text) as [value|e] eqn:Hloads; cbn.
    + repeat split.
      * now exists value.
      * discriminate.
      * intros text' e' Ht He'. injection Ht as <-. congruence.
      * intros text' value' Ht He'. injection Ht as <-. congruence.
    + destruct (is_JSONDecodeError e) eqn:Hcls; cbn.
      * repeat split.
        -- eexists; reflexivity.
        -- discriminate.
        -- intros. eexists. split; [reflexivity|]. apply default_analysis_shape.
        -- intros text' value' Ht He'. injection Ht as <-. congruence.
      * repeat split.
        -- eexists; reflexivity.
        -- discriminate.
        -- intros text' e' Ht He' Hd. injection Ht as <-. congruence.
        -- intros text' value' Ht He'. injection Ht as <-. congruence.
  - repeat split.
    + eexists; reflexivity.
    + intros. eexists. split; [reflexivity|]. apply error_analysis_shape.
    + discriminate.
    + discriminate.
Qed.

End Analysis.

Lemma analyze_compliance_three_tiers_witness :
  let requirements := [PStr (py "3 pages minimum"); PStr (py "5 references")] in
  (exists result,
     fst (@analyze_compliance Recorded.runtime Recorded.failing requirements (py "essay"))
       = Returned result /\ call_failure_result result) /\
  (exists result,
     fst (@analyze_compliance Recorded.runtime (Recorded.answering (py "Looks fine."))
                              requirements (py "essay"))
       = Returned result /\ parse_failure_result requirements result) /\
  fst (@analyze_compliance Recorded.runtime
         (Recorded.answering Recorded.object_text)
         requirements (py "essay"))
    = Returned (PDict [(py "overall_score", PInt 90)]).
Proof.
  intro requirements. split; [|split].
  - destruct (@analyze_compliance_three_tiers Recorded.runtime Recorded.failing
                requirements (py "essay")) as (_ & H & _ & _).
    exact (H _ eq_refl).
  - destruct (@analyze_compliance_three_tiers Recorded.runtime
                (Recorded.answering (py "Looks fine.")) requirements (py "essay"))
      as (_ & _ & H & _).
    exact (H _ _ eq_refl eq_refl eq_refl).
  - destruct (@analyze_compliance_three_tiers Recorded.runtime
                (Recorded.answering Recorded.object_text)
                requirements (py "essay")) as (_ & _ & _ & H).
    exact (H _ _ eq_refl eq_refl).
Defined.

(** ** [extract_requirements] *)

Section Extraction.
Context {RT : PyRuntime}.

(** The tier of [extract_requirements] that a rejected answer reaches. *)
Lemma extract_requirements_fallback (self : TextProcessor.t) (text response : pystr) (e : exn) :
  generate_content self (extract_requirements_prompt text) = Returned response ->
  json_loads response = Raised e -> is_JSONDecodeError e = true ->
  fst (extract_requirements self text) = Returned (map PStr (split_requirements response)).
Proof.
  intros Hcall Hloads Hcls. unfold extract_requirements, call_model.
  rewrite Hcall. cbn. rewrite Hloads. cbn. rewrite Hcls. reflexivity.
Qed.

(** C4. When the answer of the model is JSON for an array,
    [extract_requirements] returns the decoded array itself: the same
    elements in the same order, whatever they are. *)
Theorem extract_requirements_json_array
        (self : TextProcessor.t) (text response : pystr) (items : list pyval) :
  generate_content self (extract_requirements_prompt text) = Returned response ->
  json_loads response = Returned (PList items) ->
  fst (extract_requirements self text) = Returned items.
Proof.
  intros Hcall Hloads. unfold extract_requirements, call_model.
  rewrite Hcall. cbn. rewrite Hloads. reflexivity.
Qed.

(** C2. On the answer ["1. 3 pages minimum"], which is not JSON,
    [extract_requirements] returns ["pages minimum"]: [lstrip] removes
    every leading character of the set it is given, so after the marker
    ["1. "] the quantity ["3 "] goes too, where removing one leading marker
    leaves ["3 pages minimum"]. *)
Theorem extract_requirements_strips_character_sets
        (self : TextProcessor.t) (text : pystr) (e : exn) :
  let response := py "1. 3 pages minimum" in
  generate_content self (extract_requirements_prompt text) = Returned response ->
  json_loads response = Raised e -> is_JSONDecodeError e = true ->
  fst (extract_requirements self text) = Returned [PStr (py "pages minimum")] /\
  spec_split_requirements response = [py "3 pages minimum"].
Proof.
  intros response Hcall Hloads Hcls. split.
  - rewrite (extract_requirements_fallback self text response e Hcall Hloads Hcls). reflexivity.
  - reflexivity.
Qed.

End Extraction.

Lemma extract_requirements_json_array_witness :
  fst (@extract_requirements Recorded.runtime
         (Recorded.answering Recorded.array_text)
         (py "a, b and a"))
    = Returned [PStr (py "a"); PStr (py "b"); PStr (py "a")].
Proof.
  apply (@extract_requirements_json_array Recorded.runtime
           (Recorded.answering Recorded.array_text) (py "a, b and a") Recorded.array_text);
    reflexivity.
Defined.

Lemma extract_requirements_strips_character_sets_witness :
  fst (@extract_requirements Recorded.runtime
         (Recorded.answering (py "1. 3 pages minimum")) (py "the assignment"))
    = Returned [PStr (py "pages minimum")] /\
  spec_split_requirements (py "1. 3 pages minimum") = [py "3 pages minimum"].
Proof.
  apply (@extract_requirements_strips_character_sets Recorded.runtime
           (Recorded.answering (py "1. 3 pages minimum")) (py "the assignment")
           (Exn JSONDecodeError (py "Expecting value: line 1 column 1 (char 0)")));
    reflexivity.
Defined.

(** ** [_clean_text] and [extract_text_from_image] *)

Lemma drop_while_all (p : char -> bool) (s : pystr) :
  forallb p s = true -> drop_while p s = [].
Proof.
  induction s as [|c s IH]; simpl; [reflexivity|].
  intro H. apply andb_true_iff in H. destruct H as [Hc Hs]. rewrite Hc. auto.
Qed.

Lemma strip_blank (line : pystr) : forallb is_space line = true -> strip line = [].
Proof.
  intro H. unfold strip, rstrip, lstrip. now rewrite (drop_while_all _ _ H).
Qed.

Lemma split_blank (s : pystr) :
  forallb is_space s = true ->
  Forall (fun line => forallb is_space line = true) (split nl s).
Proof.
  induction s as [|c s IH]; simpl; intro H.
  - repeat constructor.
  - apply andb_true_iff in H. destruct H as [Hc Hs]. specialize (IH Hs).
    destruct (char_eqb c nl).
    + constructor; [reflexivity|assumption].
    + destruct (split nl s) as [|f fs]; [repeat constructor; simpl; now rewrite Hc|].
      inversion IH; subst. constructor; [simpl; now rewrite Hc|assumption].
Qed.

(** Blank lines leave the list of cleaned lines as it is. *)
Lemma clean_blank_lines (lines cleaned : list pystr) :
  Forall (fun line => forallb is_space line = true) lines ->
  fold_left
    (fun cleaned_lines line =>
       let line := strip line in
       if negb (str_eqb line []) then cleaned_lines ++ [line] else cleaned_lines)
    lines cleaned = cleaned.
Proof.
  intro H. revert cleaned. induction H as [|line lines Hline _ IH]; intro cleaned; simpl.
  - reflexivity.
  - rewrite (strip_blank _ Hline). simpl. apply IH.
Qed.

Lemma clean_text_blank (text : pystr) :
  text <> [] -> forallb is_space text = true -> _clean_text text = [].
Proof.
  intros Hne Hblank. unfold _clean_text.
  destruct (str_eqb text []) eqn:E; [apply str_eqb_eq in E; contradiction|].
  now rewrite (clean_blank_lines _ _ (split_blank _ Hblank)).
Qed.

(** C5. When the OCR engine recognises only whitespace (a form feed, a
    newline, spaces), and not the empty string, [extract_text_from_image]
    returns the empty string, not the "no text" message: [_clean_text]
    tests for emptiness before the blank lines are dropped and not after. *)
Theorem extract_text_whitespace_only
        (self : ImageProcessor.t) (image_file : list N) (text : pystr) :
  image_to_string self image_file = Returned text ->
  text <> [] -> forallb is_space text = true ->
  extract_text_from_image self image_file = (Returned [], []) /\
  _clean_text [] = py "이미지에서 텍스트를 추출할 수 없습니다.".
Proof.
  intros Hocr Hne Hblank. split; [|reflexivity].
  unfold extract_text_from_image. rewrite Hocr. cbn.
  now rewrite (clean_text_blank _ Hne Hblank).
Qed.

Lemma extract_text_whitespace_only_witness :
  extract_text_from_image (Recorded.recognising [12%N]) [] = (Returned [], []) /\
  _clean_text [] = py "이미지에서 텍스트를 추출할 수 없습니다.".
Proof.
  apply (extract_text_whitespace_only (Recorded.recognising [12%N]) [] [12%N]).
  - reflexivity.
  - discriminate.
  - reflexivity.
Defined.

(** ** [send_report_email] *)

(** C7. Without sender address or password [send_report_email] returns
    [False] having only reported the missing configuration, with no call on
    the relay; and whatever the recipient, body and subject, it returns a
    boolean and never raises, [False] as soon as one step of the delivery
    raises. *)
Theorem send_report_email_never_raises
        (self : EmailSender.t) (world : relay) (recipient_email report_content subject : pystr) :
  let sent := send_report_email self world recipient_email report_content subject in
  (not_set (sender_email self) || not_set (sender_password self) = true ->
   fst sent = Returned false /\ existsb smtp_event (snd sent) = false) /\
  (exists ok, fst sent = Returned ok) /\
  (forall e,
     In (Some e) [build world; connect world; starttls world; login world;
                  send_message world; quit world] ->
     fst sent = Returned false).
Proof.
  intro sent. subst sent. unfold send_report_email.
  destruct (not_set (sender_email self) || not_set (sender_password self)) eqn:Hcfg.
  - cbn. repeat split; try (eexists; reflexivity).
  - split; [discriminate|].
    destruct world as [b c s l m q]; cbn [EmailSender.build EmailSender.connect
      EmailSender.starttls EmailSender.login EmailSender.send_message EmailSender.quit].
    destruct b as [eb|], c as [ec|], s as [es|], l as [el|], m as [em|], q as [eq|];
      cbn; (split; [eexists; reflexivity|]); intros e He;
      try reflexivity;
      repeat (destruct He as [He|He]; [discriminate He|]); destruct He.
Qed.

Lemma send_report_email_never_raises_witness :
  (fst (send_report_email Recorded.unconfigured Recorded.healthy
          (py "a@b.co") (py "report") (py "subject")) = Returned false /\
   existsb smtp_event
     (snd (send_report_email Recorded.unconfigured Recorded.healthy
             (py "a@b.co") (py "report") (py "subject"))) = false) /\
  fst (send_report_email Recorded.configured Recorded.rejecting_login
         (py "a@b.co") (py "report") (py "subject")) = Returned false.
Proof.
  split.
  - destruct (send_report_email_never_raises Recorded.unconfigured Recorded.healthy
                (py "a@b.co") (py "report") (py "subject")) as (H & _ & _).
    exact (H eq_refl).
  - destruct (send_report_email_never_raises Recorded.configured Recorded.rejecting_login
                (py "a@b.co") (py "report") (py "subject")) as (_ & _ & H).
    apply (H (Exn (OtherException (py "SMTPAuthenticationError"))
                  (py "(535, b'5.7.8 BadCredentials')"))).
    simpl. right. right. right. left. reflexivity.
Defined.

(** ** [validate_email] *)

(** [cls{need,}] then [k]: the matcher tries every taken of the class. *)
Lemma repeat_then_spec (cls : list class_item) (k : nat -> pystr -> bool)
      (s : pystr) (need pos : nat) :
  repeat_then cls k need pos s = true <->
  exists taken rest,
    s = taken ++ rest /\ need <= List.length taken /\
    forallb (in_class cls) taken = true /\ k (pos + List.length taken) rest = true.
Proof.
  revert need pos. induction s as [|c s IH]; intros need pos; simpl.
  - rewrite orb_false_r. split.
    + destruct need; [|discriminate]. intro H. exists [], []. simpl.
      rewrite Nat.add_0_r. auto.
    + intros (taken & rest & Hs & Hn & _ & Hk).
      symmetry in Hs. apply app_eq_nil in Hs. destruct Hs as [-> ->].
      simpl in *. destruct need; [|lia]. now rewrite Nat.add_0_r in Hk.
  - rewrite orb_true_iff, andb_true_iff, IH. split.
    + intros [H|[Hc (taken & rest & Hs & Hn & Htaken & Hk)]].
      * destruct need; [|discriminate]. exists [], (c :: s). simpl.
        rewrite Nat.add_0_r. auto.
      * exists (c :: taken), rest. simpl. subst s. repeat split.
        -- lia.
        -- now rewrite Hc, Htaken.
        -- now rewrite Nat.add_succ_r.
    + intros (taken & rest & Hs & Hn & Htaken & Hk). destruct taken as [|c' taken].
      * left. simpl in *. subst rest. destruct need; [|lia].
        now rewrite Nat.add_0_r in Hk.
      * right. simpl in *. injection Hs as <- ->.
        apply andb_true_iff in Htaken. destruct Htaken as [Hc Htaken]. split; [assumption|].
        exists taken, rest. repeat split; try assumption; try lia.
        now rewrite Nat.add_succ_r in Hk.
Qed.

Lemma at_eol_spec (rest : pystr) : at_eol rest = true <-> rest = [] \/ rest = [nl].
Proof.
  destruct rest as [|c [|d rest]]; simpl; split; intro H; auto.
  - right. apply char_eqb_eq in H. now subst.
  - destruct H as [H|H]; [discriminate|]. injection H as ->. reflexivity.
  - discriminate.
  - destruct H as [H|H]; discriminate.
Qed.

Lemma in_class_local (c : char) :
  in_class (alnum ++ [ Single (chr "."); Single (chr "_"); Single (chr "%");
                       Single (chr "+"); Single (chr "-") ]) c = local_char c.
Proof.
  unfold local_char, in_class. simpl.
  swap_ranges c.
Qed.

Lemma in_class_domain (c : char) :
  in_class (alnum ++ [ Single (chr "."); Single (chr "-") ]) c = domain_char c.
Proof.
  unfold domain_char, in_class. simpl.
  swap_ranges c.
Qed.

Lemma in_class_letter (c : char) :
  in_class [ Range (chr "a") (chr "z"); Range (chr "A") (chr "Z") ] c = letter c.
Proof.
  unfold letter, in_class. simpl.
  swap_ranges c.
Qed.

Lemma forallb_ext_eq (p q : char -> bool) (s : pystr) :
  (forall c, p c = q c) -> forallb p s = forallb q s.
Proof. intro H. induction s as [|c s IH]; simpl; [reflexivity|]. now rewrite H, IH. Qed.

(** What the pattern accepts: an address of the documented shape, alone or
    followed by one newline. *)
Lemma validate_email_spec (email : pystr) :
  validate_email email = true <->
  exists address tail,
    email = address ++ tail /\ email_shape address /\ (tail = [] \/ tail = [nl]).
Proof.
  unfold validate_email, re_match, pattern. simpl match_here.
  rewrite repeat_then_spec. split.
  - intros (local & r1 & Hs & Hl & Hlocal & Hk). simpl in Hk.
    destruct r1 as [|c1 r1]; [discriminate|].
    apply andb_true_iff in Hk. destruct Hk as [Hat Hk].
    apply char_eqb_eq in Hat. subst c1.
    apply repeat_then_spec in Hk.
    destruct Hk as (domain & r2 & Hr1 & Hd & Hdomain & Hk).
    destruct r2 as [|c2 r2]; [discriminate|].
    apply andb_true_iff in Hk. destruct Hk as [Hdot Hk].
    apply char_eqb_eq in Hdot. subst c2.
    apply repeat_then_spec in Hk.
    destruct Hk as (tld & tail & Hr2 & Ht & Htld & Hk).
    rewrite andb_true_r in Hk. apply at_eol_spec in Hk.
    exists (local ++ py "@" ++ domain ++ py "." ++ tld), tail. repeat split.
    + subst. repeat (rewrite <- app_assoc; simpl). reflexivity.
    + exists local, domain, tld. repeat split; try assumption.
      * now rewrite <- (forallb_ext_eq _ _ _ in_class_local).
      * now rewrite <- (forallb_ext_eq _ _ _ in_class_domain).
      * now rewrite <- (forallb_ext_eq _ _ _ in_class_letter).
    + assumption.
  - intros (address & tail & Hs & (local & domain & tld & Ha & Hl & Hlocal & Hd & Hdomain
                                   & Ht & Htld) & Htail).
    exists local, (py "@" ++ domain ++ py "." ++ tld ++ tail). repeat split.
    + subst. repeat (rewrite <- app_assoc; simpl). reflexivity.
    + assumption.
    + now rewrite (forallb_ext_eq _ _ _ in_class_local).
    + simpl. apply repeat_then_spec.
      exists domain, (py "." ++ tld ++ tail). repeat split.
      * assumption.
      * now rewrite (forallb_ext_eq _ _ _ in_class_domain).
      * simpl. apply repeat_then_spec. exists tld, tail. repeat split.
        -- assumption.
        -- now rewrite (forallb_ext_eq _ _ _ in_class_letter).
        -- rewrite andb_true_r. now apply at_eol_spec.
Qed.

Lemma last_of_suffix (pre suffix : pystr) (d : char) :
  suffix <> [] -> last (pre ++ suffix) d = last suffix d.
Proof.
  intro Hne. induction pre as [|c pre IH]; simpl; [reflexivity|].
  destruct (pre ++ suffix) eqn:E; [|assumption].
  apply app_eq_nil in E. tauto.
Qed.

Lemma last_satisfies (p : char -> bool) (s : pystr) (d : char) :
  s <> [] -> forallb p s = true -> p (last s d) = true.
Proof.
  induction s as [|c s IH]; intros Hne Hs; [contradiction|].
  simpl in Hs. apply andb_true_iff in Hs. destruct Hs as [Hc Hs].
  destruct s as [|c' s]; [assumption|]. apply IH; [discriminate|assumption].
Qed.

(** The last character of an address of the documented shape is a letter. *)
Lemma email_shape_last (s : pystr) : email_shape s -> letter (last s 0%N) = true.
Proof.
  intros (local & domain & tld & Hs & _ & _ & _ & _ & Ht & Htld). subst s.
  assert (Hne : tld <> []) by (destruct tld; simpl in Ht; [lia|discriminate]).
  replace (local ++ py "@" ++ domain ++ py "." ++ tld)
    with ((local ++ py "@" ++ domain ++ py ".") ++ tld)
    by (repeat (rewrite <- app_assoc; simpl); reflexivity).
  rewrite last_of_suffix by assumption. now apply last_satisfies.
Qed.

Lemma email_shape_no_final_newline (s : pystr) : ~ email_shape (s ++ [nl]).
Proof.
  intro H. apply email_shape_last in H. rewrite last_last in H. discriminate.
Qed.

(** C6. The four documented examples validate as documented, and so does
    ["a@b.co\n"]: [validate_email] accepts an address followed by a
    newline, a string that is not of the documented shape
    [local@domain.tld]. *)
Theorem validate_email_accepts_final_newline :
  validate_email (py "a@b.co") = true /\
  validate_email (py "a.b+c@sub.domain.io") = true /\
  validate_email (py "not-an-email") = false /\
  validate_email (py "a@b") = false /\
  validate_email (py "a@b.co" ++ [nl]) = true /\
  ~ email_shape (py "a@b.co" ++ [nl]).
Proof.
  repeat split; try reflexivity. apply email_shape_no_final_newline.
Qed.

(** C9, as stated, fails: ["a@b.co\n"] validates, ["a@b.co\n\n"] does not. *)
Lemma validate_email_newline_added_once :
  ~ (forall s, validate_email s = true -> validate_email (s ++ [nl]) = true).
Proof.
  intro H. specialize (H (py "a@b.co" ++ [nl]) eq_refl). discriminate H.
Qed.

(** C9, amended. A string that validates and does not already end in a
    newline still validates with one newline added, and the string so
    accepted is not of the documented shape. *)
Theorem validate_email_accepts_trailing_newline (s : pystr) :
  validate_email s = true -> last s 0%N <> nl ->
  validate_email (s ++ [nl]) = true /\ ~ email_shape (s ++ [nl]).
Proof.
  intros Hs Hlast. split; [|apply email_shape_no_final_newline].
  apply validate_email_spec in Hs.
  destruct Hs as (address & tail & -> & Hshape & [->| ->]).
  - rewrite app_nil_r. apply validate_email_spec. exists address, [nl]. auto.
  - rewrite last_last in Hlast. contradiction.
Qed.

Lemma validate_email_accepts_trailing_newline_witness :
  validate_email (py "a@b.co" ++ [nl]) = true /\ ~ email_shape (py "a@b.co" ++ [nl]).
Proof.
  apply (validate_email_accepts_trailing_newline (py "a@b.co")).
  - reflexivity.
  - discriminate.
Defined.

(** ** [_create_html_email] *)

Lemma starts_with_stars (s : pystr) :
  starts_with (py "**") s = true <-> exists rest, s = star :: star :: rest.
Proof.
  change (py "**") with [star; star].
  destruct s as [|c [|d s]]; cbn [starts_with].
  - split; [discriminate|intros (rest & H); discriminate].
  - rewrite andb_false_r. split; [discriminate|intros (rest & H); discriminate].
  - rewrite andb_true_r, andb_true_iff, !char_eqb_eq. split.
    + intros [<- <-]. now exists s.
    + intros (rest & H). injection H as -> -> _. auto.
Qed.

(** A text without the marker is left as it is. *)
Lemma replace_absent (old new s : pystr) :
  contains old s = false -> replace old new s = s.
Proof.
  destruct old as [|x old]; [destruct s; discriminate|].
  unfold replace. induction s as [|c s IH]; [reflexivity|].
  cbn [contains replace_from]. intro H. apply orb_false_iff in H. destruct H as [H1 H2].
  rewrite H1. f_equal. auto.
Qed.

Lemma contains_after_starless (new s : pystr) :
  mem star new = false ->
  contains (py "**") (new ++ s) = contains (py "**") s.
Proof.
  change (py "**") with [star; star]. unfold mem.
  induction new as [|n new IH]; [reflexivity|].
  cbn [existsb]. intro H. apply orb_false_iff in H. destruct H as [Hn Hnew].
  cbn [app contains starts_with]. rewrite Hn. cbn [andb orb]. auto.
Qed.

(** After the first replacement no marker is left. *)
Lemma no_marker_after_replace (new : pystr) (n : nat) (s : pystr) :
  mem star new = false -> List.length s <= n ->
  contains (py "**") (replace (py "**") new s) = false.
Proof.
  intro Hnew. change (py "**") with [star; star]. unfold replace.
  revert s. induction n as [|n IH]; intros s Hlen.
  - destruct s; [reflexivity|simpl in Hlen; lia].
  - destruct s as [|c s]; [reflexivity|]. cbn [List.length] in Hlen.
    cbn [replace_from].
    destruct (starts_with [star; star] (c :: s)) eqn:E.
    + apply (starts_with_stars (c :: s)) in E. destruct E as (rest & E).
      injection E as -> ->. cbn [List.length Nat.sub replace_from].
      rewrite contains_after_starless by assumption.
      apply IH. cbn [List.length] in Hlen. lia.
    + cbn [contains]. apply orb_false_iff. split; [|apply IH; lia].
      cbn [starts_with].
      destruct (char_eqb star c) eqn:Ec; [|reflexivity].
      apply char_eqb_eq in Ec. subst c. cbn [andb].
      destruct s as [|d s]; [reflexivity|].
      cbn [starts_with] in E. rewrite (proj2 (char_eqb_eq star star) eq_refl) in E.
      cbn [andb] in E. rewrite andb_true_r in E.
      cbn [replace_from starts_with]. rewrite E. cbn [andb].
      now rewrite E.
Qed.

Lemma second_replace_in_vain (s : pystr) :
  replace (py "**") (py "</strong>") (replace (py "**") (py "<strong>") s)
  = replace (py "**") (py "<strong>") s.
Proof.
  apply replace_absent. apply (no_marker_after_replace _ (List.length s)); auto.
Qed.

(** C3. No closing tag is ever written: the first [replace] turns every
    [**] into [<strong>], so the second finds none to turn into
    [</strong>]; the email made from ["**a**"] has two [<strong>] and no
    [</strong>]. *)
Theorem bold_markers_all_become_opening_tags :
  (forall report_content,
     html_content_of report_content =
     replace [nl] (py "<br>" ++ [nl])
       (replace (py "**") (py "<strong>")
          (replace [nl] (py "</h3>" ++ [nl]) (replace (py "### ") (py "<h3>")
             (replace [nl] (py "</h2>" ++ [nl]) (replace (py "## ") (py "<h2>")
                (replace [nl] (py "</h1>" ++ [nl]) (replace (py "# ") (py "<h1>")
                   report_content)))))))) /\
  html_content_of (py "**a**") = py "<strong>a<strong>" /\
  count (py "<strong>") (_create_html_email (py "**a**")) = 2 /\
  count (py "</strong>") (_create_html_email (py "**a**")) = 0.
Proof.
  split; [|repeat split; vm_compute; reflexivity].
  intro report_content. unfold html_content_of. now rewrite second_replace_in_vain.
Qed.

(** ** [generate_report] *)

(** The pieces of an f-string and the lines they make. *)
Lemma item_layout (report h1 i dot req h2 status h3 score h4a h4b feedback h5 tail : pystr) :
  (report ++
   unlines [ []; h1 ] ++ i ++ dot ++ req ++
   unlines [ []; h2 ] ++ status ++
   unlines [ []; h3 ] ++ score ++
   unlines [ h4a; h4b ] ++ feedback ++
   unlines [ []; h5; [] ]) ++ tail
  = report ++
    unlines [ []; h1 ++ i ++ dot ++ req; h2 ++ status; h3 ++ score ++ h4a;
              h4b ++ feedback; h5; [] ] ++ tail.
Proof. flatten_app. reflexivity. Qed.

Lemma report_layout (h1 h2 score h3 h4 items h5 general tail : pystr) :
  (((h1 ++ score ++ unlines [ h2; []; h3; [] ]) ++ items) ++
   unlines [ []; h4; [] ] ++ general ++ unlines [ []; []; h5; [] ]) ++ tail
  = h1 ++ score ++ unlines [ h2; []; h3; [] ] ++ items ++
    unlines [ []; h4; general; []; h5; [] ] ++ tail.
Proof. flatten_app. reflexivity. Qed.

Lemma empty_layout (a b score c d e general f tail : pystr) :
  unlines [ []; a; []; b ] ++ score ++ unlines [ c; []; d; [] ] ++ [] ++
  unlines [ []; e; general; []; f; [] ] ++ tail
  = unlines [ []; a; []; b ++ score ++ c; []; d; []; e; general; []; f; [] ] ++ tail.
Proof. flatten_app. reflexivity. Qed.

Section Report.
Context {RT : PyRuntime}.

(** [add_analysis] and [generate_report] on a dict, their [get] calls
    resolved. *)
Lemma add_analysis_dict (report : pystr) (i : Z) (items : list (pystr * pyval)) :
  add_analysis report i (PDict items) =
  (suggestions <- py_iter (get_default items (py "suggestions") (PList [])) ;;
   Returned
     (add_suggestions (py "  - ")
        (report ++
         unlines [ []; py "### " ] ++ str_of_int i ++ py ". " ++
         py_format (get_default items (py "requirement") (PStr (py "N/A"))) ++
         unlines [ []; py "- **상태**: " ] ++
         (if py_truth (get_default items (py "satisfied") (PBool false))
          then py "✅ 만족" else py "❌ 미만족") ++
         unlines [ []; py "- **점수**: " ] ++
         py_format (get_default items (py "score") (PInt 0)) ++
         unlines [ py "/100"; py "- **피드백**: " ] ++
         py_format (get_default items (py "feedback") (PStr (py "N/A"))) ++
         unlines [ []; py "- **개선 제안**:"; [] ])
        suggestions)).
Proof. reflexivity. Qed.

Lemma generate_report_dict (self : TextProcessor.t) (items : list (pystr * pyval)) :
  generate_report self (PDict items) =
  (analyses <- py_iter (get_default items (py "requirements_analysis") (PList [])) ;;
   report <-
     add_analyses
       (unlines [ []; py "# 수행평가 검사 보고서"; []; py "## 📊 전체 만족도: " ] ++
        py_format (get_default items (py "overall_score") (PInt 0)) ++
        unlines [ py "/100"; []; py "## 📋 항목별 분석 결과"; [] ])
       (enumerate 1 analyses) ;;
   improvements <- py_iter (get_default items (py "improvement_suggestions") (PList [])) ;;
   Returned
     (add_suggestions (py "- ")
        (report ++ unlines [ []; py "## 💡 전체 피드백"; [] ] ++
         py_format (get_default items (py "general_feedback") (PStr (py "N/A"))) ++
         unlines [ []; []; py "## 🔧 개선 제안"; [] ])
        improvements)).
Proof. reflexivity. Qed.

Lemma add_suggestions_strs (prefix report : pystr) (suggestions : list pystr) :
  add_suggestions prefix report (map PStr suggestions)
  = report ++ List.concat (map (fun s => prefix ++ s ++ [nl]) suggestions).
Proof.
  unfold add_suggestions. revert report.
  induction suggestions as [|s suggestions IH]; intro report; cbn [map fold_left List.concat].
  - now rewrite app_nil_r.
  - rewrite IH. cbn [py_format]. now rewrite <- !app_assoc.
Qed.

(** The fields of the dictionaries that carry typed values. *)
Lemma analysis_fields (a : RequirementAnalysis) (d : pyval) :
  get_default (items_of_analysis a) (py "requirement") d = PStr (requirement a) /\
  get_default (items_of_analysis a) (py "satisfied") d = PBool (satisfied a) /\
  get_default (items_of_analysis a) (py "score") d = PInt (score a) /\
  get_default (items_of_analysis a) (py "feedback") d = PStr (feedback a) /\
  get_default (items_of_analysis a) (py "suggestions") d = PList (map PStr (suggestions a)).
Proof. unfold get_default. repeat split; now vm_compute lookup. Qed.

Lemma result_fields (r : AnalysisResult) (d : pyval) :
  get_default (items_of_result r) (py "overall_score") d = PInt (overall_score r) /\
  get_default (items_of_result r) (py "requirements_analysis") d
    = PList (map dict_of_analysis (requirements_analysis r)) /\
  get_default (items_of_result r) (py "general_feedback") d = PStr (general_feedback r) /\
  get_default (items_of_result r) (py "improvement_suggestions") d
    = PList (map PStr (improvement_suggestions r)).
Proof. unfold get_default. repeat split; now vm_compute lookup. Qed.

Lemma add_analysis_typed (report : pystr) (i : Z) (a : RequirementAnalysis) :
  add_analysis report i (dict_of_analysis a) = Returned (report ++ report_item i a).
Proof.
  unfold dict_of_analysis. rewrite add_analysis_dict.
  destruct (analysis_fields a (PStr (py "N/A"))) as (-> & _ & _ & -> & _).
  destruct (analysis_fields a (PBool false)) as (_ & -> & _ & _ & _).
  destruct (analysis_fields a (PInt 0)) as (_ & _ & -> & _ & _).
  destruct (analysis_fields a (PList [])) as (_ & _ & _ & _ & ->).
  cbn [py_iter py_format py_repr py_truth bind].
  rewrite add_suggestions_strs. f_equal. unfold report_item. apply item_layout.
Qed.

Lemma add_analyses_typed (analyses : list RequirementAnalysis) (report : pystr) (i : Z) :
  add_analyses report (enumerate i (map dict_of_analysis analyses))
  = Returned (report ++ report_items i analyses).
Proof.
  revert report i. induction analyses as [|a analyses IH]; intros report i.
  - cbn [map enumerate add_analyses]. unfold report_items. cbn [enumerate map List.concat].
    now rewrite app_nil_r.
  - cbn [map enumerate add_analyses]. rewrite add_analysis_typed. cbn [bind].
    rewrite IH. unfold report_items. cbn [enumerate map List.concat fst snd].
    now rewrite <- !app_assoc.
Qed.

(** On a typed result [generate_report] returns, and what it returns. *)
Lemma generate_report_typed (self : TextProcessor.t) (r : AnalysisResult) :
  generate_report self (dict_of_result r) = Returned (report_of r).
Proof.
  unfold dict_of_result. rewrite generate_report_dict.
  destruct (result_fields r (PInt 0)) as (-> & _ & _ & _).
  destruct (result_fields r (PList [])) as (_ & -> & _ & ->).
  destruct (result_fields r (PStr (py "N/A"))) as (_ & _ & -> & _).
  cbn [py_iter py_format py_repr bind].
  rewrite add_analyses_typed. cbn [bind]. rewrite add_suggestions_strs.
  f_equal. unfold report_of. apply report_layout.
Qed.

End Report.

(** C8. [generate_report] reads nothing but its argument: the object it is
    called on plays no part, and the report of an [AnalysisResult] is the
    same whichever object and interpreter render it; every [AnalysisResult]
    has a report, and one without analyses yields the report made of the
    overall-score line and the section headings, with no subsection. *)
Theorem generate_report_pure (RT RT' : PyRuntime) (self self' : TextProcessor.t) :
  (forall analysis_result : pyval,
     @generate_report RT self analysis_result = @generate_report RT self' analysis_result) /\
  (forall r : AnalysisResult,
     @generate_report RT self (dict_of_result r)
     = @generate_report RT' self' (dict_of_result r)) /\
  (forall r : AnalysisResult,
     exists report, @generate_report RT self (dict_of_result r) = Returned report) /\
  (forall overall general improvements,
     @generate_report RT self
        (dict_of_result {| overall_score := overall;
                           requirements_analysis := [];
                           general_feedback := general;
                           improvement_suggestions := improvements |})
     = Returned (report_without_items overall general improvements)).
Proof.
  split; [reflexivity|]. repeat split.
  - intro r. rewrite (@generate_report_typed RT), (@generate_report_typed RT'). reflexivity.
  - intro r. eexists. apply generate_report_typed.
  - intros. rewrite generate_report_typed. f_equal. apply empty_layout.
Qed.

(** *** Dictionaries with missing fields *)

Lemma lookup_app (k k' : pystr) (v : pyval) (items : list (pystr * pyval)) :
  lookup k (items ++ [(k', v)]) =
  match lookup k items with
  | Some x => Some x
  | None => if str_eqb k' k then Some v else None
  end.
Proof.
  induction items as [|[k0 v0] items IH]; cbn [app lookup]; [reflexivity|].
  destruct (str_eqb k0 k); [reflexivity|assumption].
Qed.

(** Binding a missing key to the default that [get] is given changes no
    [get]. *)
Lemma get_default_set_default (key : string) (v : pyval) (items : list (pystr * pyval))
      (k0 : pystr) (d0 : pyval) :
  (py key = k0 -> v = d0) ->
  get_default (set_default key v items) k0 d0 = get_default items k0 d0.
Proof.
  intro H. unfold set_default.
  destruct (lookup (py key) items) eqn:E; [reflexivity|].
  unfold get_default. rewrite lookup_app.
  destruct (lookup k0 items); [reflexivity|].
  destruct (str_eqb (py key) k0) eqn:Ek; [|reflexivity].
  apply str_eqb_eq in Ek. exact (H Ek).
Qed.

Lemma lookup_entries_with_defaults_other (k : pystr) (items : list (pystr * pyval)) :
  str_eqb k (py "requirements_analysis") = false ->
  lookup k (map entries_with_defaults items) = lookup k items.
Proof.
  intro Hk. induction items as [|[k0 v0] items IH]; [reflexivity|].
  cbn [map]. unfold entries_with_defaults at 1.
  destruct (str_eqb k0 k) eqn:E0.
  - apply str_eqb_eq in E0. subst k0. rewrite Hk.
    destruct v0; cbn [lookup]; rewrite str_eqb_refl; reflexivity.
  - destruct v0; try (cbn [lookup]; rewrite E0; exact IH).
    destruct (str_eqb k0 (py "requirements_analysis")); cbn [lookup]; rewrite E0; exact IH.
Qed.

Lemma lookup_entries_with_defaults (items : list (pystr * pyval)) :
  lookup (py "requirements_analysis") (map entries_with_defaults items) =
  match lookup (py "requirements_analysis") items with
  | Some (PList entries) => Some (PList (map entry_with_defaults entries))
  | other => other
  end.
Proof.
  induction items as [|[k0 v0] items IH]; [reflexivity|].
  cbn [map]. unfold entries_with_defaults at 1.
  destruct (str_eqb k0 (py "requirements_analysis")) eqn:E0.
  - destruct v0; cbn [lookup]; rewrite E0; reflexivity.
  - destruct v0; cbn [lookup]; rewrite E0; exact IH.
Qed.

Lemma iterable_iter (obj : pyval) :
  iterable obj = true -> exists items, py_iter obj = Returned items.
Proof. destruct obj; try discriminate; intros _; eexists; reflexivity. Qed.

Lemma absent_or_get_default (p : pyval -> bool) (key : string) (d : pyval)
      (items : list (pystr * pyval)) :
  absent_or p key items = true -> p d = true -> p (get_default items (py key) d) = true.
Proof.
  unfold absent_or, get_default. destruct (lookup (py key) items); auto.
Qed.

Section Defaults.
Context {RT : PyRuntime}.

Lemma add_analysis_defaults (report : pystr) (i : Z) (entry : pyval) :
  add_analysis report i (entry_with_defaults entry) = add_analysis report i entry.
Proof.
  destruct entry; try reflexivity. cbn [entry_with_defaults].
  rewrite !add_analysis_dict.
  rewrite !get_default_set_default by default_side. reflexivity.
Qed.

Lemma add_analyses_defaults (entries : list pyval) (report : pystr) (i : Z) :
  add_analyses report (enumerate i (map entry_with_defaults entries))
  = add_analyses report (enumerate i entries).
Proof.
  revert report i. induction entries as [|e entries IH]; intros report i; [reflexivity|].
  cbn [map enumerate add_analyses]. rewrite add_analysis_defaults.
  destruct (add_analysis report i e); cbn [bind]; auto.
Qed.

(** Rendering a dictionary and rendering it with every missing field bound
    to its default give the same outcome. *)
Lemma generate_report_defaults (self : TextProcessor.t) (items : list (pystr * pyval)) :
  generate_report self (PDict (with_defaults items)) = generate_report self (PDict items).
Proof.
  rewrite !generate_report_dict. unfold with_defaults.
  rewrite !get_default_set_default by default_side.
  unfold get_default.
  rewrite (lookup_entries_with_defaults_other (py "overall_score")) by reflexivity.
  rewrite (lookup_entries_with_defaults_other (py "general_feedback")) by reflexivity.
  rewrite (lookup_entries_with_defaults_other (py "improvement_suggestions")) by reflexivity.
  rewrite lookup_entries_with_defaults.
  destruct (lookup (py "requirements_analysis") items) as [ra|]; [|reflexivity].
  destruct ra; try reflexivity.
  cbn [py_iter bind]. now rewrite add_analyses_defaults.
Qed.

Lemma add_analysis_ok (report : pystr) (i : Z) (entry : pyval) :
  entry_ok entry = true -> exists report', add_analysis report i entry = Returned report'.
Proof.
  destruct entry; try discriminate. cbn [entry_ok]. intro H.
  rewrite add_analysis_dict.
  destruct (iterable_iter _ (absent_or_get_default iterable "suggestions" (PList []) _ H eq_refl))
    as (suggestions & ->).
  eexists. reflexivity.
Qed.

Lemma add_analyses_ok (entries : list pyval) (report : pystr) (i : Z) :
  forallb entry_ok entries = true ->
  exists report', add_analyses report (enumerate i entries) = Returned report'.
Proof.
  revert report i. induction entries as [|e entries IH]; intros report i H.
  - eexists. reflexivity.
  - cbn [forallb] in H. apply andb_true_iff in H. destruct H as [He Hes].
    cbn [enumerate add_analyses].
    destruct (add_analysis_ok report i e He) as (report' & ->). cbn [bind]. auto.
Qed.

Lemma generate_report_ok (self : TextProcessor.t) (items : list (pystr * pyval)) :
  renderable items = true ->
  exists report, generate_report self (PDict items) = Returned report.
Proof.
  unfold renderable. intro H. apply andb_true_iff in H. destruct H as [Hra Himp].
  rewrite generate_report_dict.
  pose proof (absent_or_get_default entries_ok "requirements_analysis" (PList []) _ Hra eq_refl)
    as Hentries.
  unfold entries_ok in Hentries.
  destruct (py_iter (get_default items (py "requirements_analysis") (PList [])))
    as [entries|]; [|discriminate].
  cbn [bind].
  destruct (add_analyses_ok entries
              (unlines [ []; py "# 수행평가 검사 보고서"; []; py "## 📊 전체 만족도: " ] ++
               py_format (get_default items (py "overall_score") (PInt 0)) ++
               unlines [ py "/100"; []; py "## 📋 항목별 분석 결과"; [] ])
              1 Hentries) as (report & ->).
  cbn [bind].
  destruct (iterable_iter _ (absent_or_get_default iterable "improvement_suggestions"
                               (PList []) _ Himp eq_refl)) as (improvements & ->).
  eexists. reflexivity.
Qed.

(** C10, amended. On a dictionary in which whatever [generate_report]
    iterates over can be iterated ([requirements_analysis], each
    [suggestions], [improvement_suggestions], when present) and the entries
    of [requirements_analysis] are dicts, it returns a string; and missing
    fields are rendered as their defaults: 0 for the scores, ["N/A"] for
    [requirement], [feedback] and [general_feedback], [False] for
    [satisfied], the empty list for the suggestions. *)
Theorem generate_report_total_on_renderable
        (self : TextProcessor.t) (items : list (pystr * pyval)) :
  renderable items = true ->
  (exists report, generate_report self (PDict items) = Returned report) /\
  generate_report self (PDict items) = generate_report self (PDict (with_defaults items)).
Proof.
  intro H. split; [now apply generate_report_ok|]. symmetry. apply generate_report_defaults.
Qed.

End Defaults.

(** C10, as stated, fails: the entries of [requirements_analysis] are dicts
    (there are none), and [generate_report] raises [TypeError] on the
    [null] of [improvement_suggestions]. *)
Lemma generate_report_raises_on_null :
  entries_are_dicts Recorded.null_suggestions = true /\
  @generate_report Recorded.runtime (Recorded.answering []) (PDict Recorded.null_suggestions)
  = Raised (Exn TypeError (py "'NoneType' object is not iterable")).
Proof. split; vm_compute; reflexivity. Qed.

Lemma generate_report_total_on_renderable_witness :
  (exists report,
     @generate_report Recorded.runtime (Recorded.answering []) (PDict Recorded.sparse)
     = Returned report) /\
  @generate_report Recorded.runtime (Recorded.answering []) (PDict Recorded.sparse)
  = @generate_report Recorded.runtime (Recorded.answering [])
      (PDict (with_defaults Recorded.sparse)).
Proof.
  apply (@generate_report_total_on_renderable Recorded.runtime). reflexivity.
Defined.

(** * Further properties *)

Import App Observe.

(** ** [extract_requirements] *)

Section ExtractionMore.
Context {RT : PyRuntime}.

(** X1. [extract_requirements] always returns a list.  When the call to the
    model raises, or when [json.loads] raises anything but a
    [JSONDecodeError], the list is empty, after one call and one printed
    message. *)
Theorem extract_requirements_returns (self : TextProcessor.t) (text : pystr) :
  let prompt := extract_requirements_prompt text in
  let failed e :=
    (Returned (@nil pyval),
     [GenerateContent prompt; Print (py "요구조건 추출 중 오류 발생: " ++ exn_msg e)]) in
  (exists items, fst (extract_requirements self text) = Returned items) /\
  (forall e, generate_content self prompt = Raised e ->
             extract_requirements self text = failed e) /\
  (forall response e,
     generate_content self prompt = Returned response ->
     json_loads response = Raised e -> is_JSONDecodeError e = false ->
     extract_requirements self text = failed e).
Proof.
  intros prompt failed. subst prompt failed. unfold extract_requirements, call_model.
  destruct (generate_content self (extract_requirements_prompt text)) as [response|e] eqn:Hcall;
    cbn.
  - destruct (json_loads response) as [value|e] eqn:Hloads; cbn.
    + split; [|split].
      * destruct value; eexists; reflexivity.
      * discriminate.
      * intros response' e' H. injection H as <-. congruence.
    + destruct (is_JSONDecodeError e) eqn:Hcls; cbn.
      * split; [eexists; reflexivity|]. split; [discriminate|].
        intros response' e' H He' Hd. injection H as <-. congruence.
      * split; [eexists; reflexivity|]. split; [discriminate|].
        intros response' e' H He' Hd. injection H as <-.
        rewrite Hloads in He'. injection He' as <-. reflexivity.
  - split; [eexists; reflexivity|]. split.
    + intros e' H. injection H as <-. reflexivity.
    + discriminate.
Qed.

(** X2. An answer that is JSON but not an array (an object, a string, a
    number) is not used as decoded: its text goes through the
    line-splitting fallback. *)
Theorem extract_requirements_json_not_array
        (self : TextProcessor.t) (text response : pystr) (value : pyval) :
  generate_content self (extract_requirements_prompt text) = Returned response ->
  json_loads response = Returned value ->
  (forall items, value <> PList items) ->
  fst (extract_requirements self text) = Returned (map PStr (split_requirements response)).
Proof.
  intros Hcall Hloads Hvalue. unfold extract_requirements, call_model.
  rewrite Hcall. cbn. rewrite Hloads.
  destruct value; try reflexivity. now elim (Hvalue items).
Qed.

End ExtractionMore.

Lemma extract_requirements_returns_witness :
  extract_requirements (RT := Recorded.runtime) Recorded.failing (py "the assignment")
  = (Returned [],
     [GenerateContent (extract_requirements_prompt (py "the assignment"));
      Print (py "요구조건 추출 중 오류 발생: " ++ exn_msg Samples.quota_exceeded)]).
Proof.
  destruct (@extract_requirements_returns Recorded.runtime Recorded.failing
              (py "the assignment")) as (_ & H & _).
  exact (H Samples.quota_exceeded eq_refl).
Defined.

Lemma extract_requirements_json_not_array_witness :
  fst (extract_requirements (RT := Recorded.runtime)
         (Recorded.answering Recorded.object_text) (py "the assignment"))
  = Returned (map PStr (split_requirements Recorded.object_text)).
Proof.
  apply (@extract_requirements_json_not_array Recorded.runtime
           (Recorded.answering Recorded.object_text) (py "the assignment")
           Recorded.object_text (PDict [(py "overall_score", PInt 90)])).
  - reflexivity.
  - reflexivity.
  - discriminate.
Defined.

(** *** The lines the fallback returns *)

Lemma split_no_sep (sep : char) (s : pystr) :
  Forall (fun field => ~ In sep field) (split sep s).
Proof.
  induction s as [|c s IH]; cbn [split].
  - constructor; [intros []|constructor].
  - destruct (char_eqb c sep) eqn:E.
    + constructor; [intros []|assumption].
    + destruct (split sep s) as [|f fs].
      * constructor; [|constructor]. intros [H|[]]. subst c.
        rewrite (proj2 (char_eqb_eq sep sep) eq_refl) in E. discriminate.
      * inversion IH as [|? ? Hf Hfs]; subst. constructor; [|assumption].
        intros [H|H]; [|contradiction]. subst c.
        rewrite (proj2 (char_eqb_eq sep sep) eq_refl) in E. discriminate.
Qed.

Lemma drop_while_suffix (p : char -> bool) (s : pystr) :
  exists dropped, s = dropped ++ drop_while p s.
Proof.
  induction s as [|c s (dropped & IH)]; cbn [drop_while].
  - now exists [].
  - destruct (p c).
    + exists (c :: dropped). cbn [app]. now f_equal.
    + now exists [].
Qed.

Lemma drop_while_hd (p : char -> bool) (s : pystr) (c : char) (rest : pystr) :
  drop_while p s = c :: rest -> p c = false.
Proof.
  induction s as [|d s IH]; cbn [drop_while]; [discriminate|].
  destruct (p d) eqn:E; [assumption|]. intro H. injection H as <- _. assumption.
Qed.

Lemma drop_while_id (p : char -> bool) (s : pystr) :
  p (hd 0%N s) = false -> s <> [] -> drop_while p s = s.
Proof.
  destruct s as [|c s]; [contradiction|]. cbn [hd drop_while]. now intros ->.
Qed.

Lemma last_rev_cons (c : char) (r : pystr) (d : char) : last (rev (c :: r)) d = c.
Proof. cbn [rev]. apply last_last. Qed.

Lemma hd_rev (s : pystr) (d : char) : hd d (rev s) = last s d.
Proof.
  induction s as [|c s IH] using rev_ind; [reflexivity|].
  now rewrite rev_app_distr, last_last.
Qed.

(** What [strip] leaves: a part of the line with no whitespace at either
    end. *)
Lemma strip_part (line : pystr) :
  exists before after, line = before ++ strip line ++ after.
Proof.
  unfold strip, rstrip, lstrip.
  destruct (drop_while_suffix is_space line) as (before & Hb).
  destruct (drop_while_suffix is_space (rev (drop_while is_space line))) as (after & Ha).
  exists before, (rev after).
  rewrite <- rev_app_distr, <- Ha, rev_involutive. exact Hb.
Qed.

Lemma strip_last (line : pystr) :
  strip line <> [] -> is_space (last (strip line) 0%N) = false.
Proof.
  unfold strip, rstrip.
  destruct (drop_while is_space (rev (lstrip line))) as [|c r] eqn:E; [contradiction|].
  intros _. rewrite last_rev_cons. exact (drop_while_hd _ _ _ _ E).
Qed.

Lemma rstrip_hd (s : pystr) :
  rstrip s <> [] -> hd 0%N (rstrip s) = hd 0%N s.
Proof.
  unfold rstrip. intro Hne.
  destruct (drop_while_suffix is_space (rev s)) as (dropped & H).
  apply (f_equal (@rev char)) in H. rewrite rev_involutive, rev_app_distr in H.
  destruct (rev (drop_while is_space (rev s))) as [|c r]; [contradiction|].
  rewrite H. reflexivity.
Qed.

Lemma strip_hd (line : pystr) :
  strip line <> [] -> is_space (hd 0%N (strip line)) = false.
Proof.
  unfold strip. intro Hne. rewrite (rstrip_hd _ Hne). unfold lstrip.
  destruct (drop_while is_space line) as [|c r] eqn:E.
  - exfalso. apply Hne. unfold lstrip. rewrite E. reflexivity.
  - exact (drop_while_hd _ _ _ _ E).
Qed.

Lemma not_in_part (c : char) (whole before part after : pystr) :
  whole = before ++ part ++ after -> ~ In c whole -> ~ In c part.
Proof.
  intros -> H Hin. apply H. apply in_or_app. right. apply in_or_app. now left.
Qed.

Lemma nonempty_spec (s : pystr) : nonempty s = true <-> s <> [].
Proof.
  unfold nonempty. destruct s; cbn; split; try discriminate; try reflexivity.
  intro H. now elim H.
Qed.

(** One [lstrip(chars)] keeps the end of a line and its being on one
    line. *)
Lemma lstrip_chars_keeps (chars line : pystr) :
  lstrip_chars chars line <> [] ->
  last (lstrip_chars chars line) 0%N = last line 0%N /\
  (~ In nl line -> ~ In nl (lstrip_chars chars line)).
Proof.
  unfold lstrip_chars. intro Hne.
  destruct (drop_while_suffix (fun c => mem c chars) line) as (dropped & H). split.
  - rewrite H at 2. symmetry. now apply last_of_suffix.
  - intros Hnl Hin. apply Hnl. rewrite H. apply in_or_app. now right.
Qed.

Lemma lstrip_chars_nonempty (chars line : pystr) :
  lstrip_chars chars line <> [] -> line <> [].
Proof. intros H ->. now apply H. Qed.

(** X3. Every requirement the line-splitting fallback returns is a
    non-empty single line without whitespace at its end, and it does not
    begin with ['3'], ['.'] or a space. *)
Theorem split_requirements_tidy (response_text : pystr) :
  Forall tidy_requirement (split_requirements response_text).
Proof.
  unfold split_requirements. apply Forall_forall. intros r Hr.
  apply filter_In in Hr. destruct Hr as [Hr Hne]. apply nonempty_spec in Hne.
  apply in_map_iff in Hr. destruct Hr as (line & <- & Hline).
  apply filter_In in Hline. destruct Hline as [Hline Hstripped].
  apply nonempty_spec in Hstripped.
  pose proof (split_no_sep nl (strip response_text)) as Hnl.
  rewrite Forall_forall in Hnl. specialize (Hnl _ Hline).
  destruct (strip_part line) as (before & after & Hpart).
  pose proof (not_in_part nl _ _ _ _ Hpart Hnl) as Hnl0.
  pose proof (strip_last _ Hstripped) as Hlast0.
  set (l0 := strip line) in *.
  set (l1 := lstrip_chars (py "- ") l0) in *.
  set (l2 := lstrip_chars (py "* ") l1) in *.
  set (l3 := lstrip_chars (py "1. ") l2) in *.
  set (l4 := lstrip_chars (py "2. ") l3) in *.
  assert (H4 : l4 <> []) by exact (lstrip_chars_nonempty _ _ Hne).
  assert (H3 : l3 <> []) by exact (lstrip_chars_nonempty _ _ H4).
  assert (H2 : l2 <> []) by exact (lstrip_chars_nonempty _ _ H3).
  assert (H1 : l1 <> []) by exact (lstrip_chars_nonempty _ _ H2).
  destruct (lstrip_chars_keeps (py "- ") l0 H1) as [E1 N1].
  destruct (lstrip_chars_keeps (py "* ") l1 H2) as [E2 N2].
  destruct (lstrip_chars_keeps (py "1. ") l2 H3) as [E3 N3].
  destruct (lstrip_chars_keeps (py "2. ") l3 H4) as [E4 N4].
  destruct (lstrip_chars_keeps (py "3. ") l4 Hne) as [E5 N5].
  fold l1 in E1, N1. fold l2 in E2, N2. fold l3 in E3, N3. fold l4 in E4, N4.
  split; [exact Hne|]. split; [exact (N5 (N4 (N3 (N2 (N1 Hnl0)))))|]. split.
  - rewrite E5, E4, E3, E2, E1. exact Hlast0.
  - unfold lstrip_chars in *.
    destruct (drop_while (fun c => mem c (py "3. ")) l4) as [|c rest] eqn:E;
      [now elim Hne|].
    cbn [hd]. exact (drop_while_hd _ _ _ _ E).
Qed.

(** ** [analyze_compliance] and [generate_report] together *)

Section RenderMore.
Context {RT : PyRuntime}.

Lemma default_analysis_renderable (requirements : list pyval) :
  exists items, default_analysis requirements = PDict items /\ renderable items = true.
Proof.
  eexists. split; [reflexivity|].
  unfold renderable, absent_or. vm_compute lookup. cbn [andb iterable].
  rewrite andb_true_r. unfold entries_ok. cbn [py_iter].
  induction requirements as [|req requirements IH]; [reflexivity|].
  cbn [map forallb]. rewrite IH. rewrite andb_true_r.
  unfold entry_ok, absent_or. now vm_compute lookup.
Qed.

(** X4. Whenever the answer of the model was not decoded (the call raised,
    or [json.loads] raised), what [analyze_compliance] returns is a
    dictionary that [generate_report] renders without raising, whatever
    the requirements are. *)
Theorem undecoded_analysis_renders
        (self : TextProcessor.t) (requirements : list pyval) (submission : pystr) :
  (forall text value,
     generate_content self (analyze_compliance_prompt requirements submission)
       = Returned text ->
     json_loads text <> Returned value) ->
  exists result rendered,
    fst (analyze_compliance self requirements submission) = Returned result /\
    generate_report self result = Returned rendered.
Proof.
  intro Hundecoded. unfold analyze_compliance, call_model.
  destruct (generate_content self (analyze_compliance_prompt requirements submission))
    as [text|e] eqn:Hcall; cbn.
  - destruct (json_loads text) as [value|e] eqn:Hloads; cbn.
    + now elim (Hundecoded text value eq_refl).
    + destruct (is_JSONDecodeError e); cbn.
      * destruct (default_analysis_renderable requirements) as (items & -> & Hok).
        destruct (generate_report_ok self items Hok) as (rendered & Hr).
        eexists _, rendered. split; [reflexivity|exact Hr].
      * destruct (generate_report_ok self _ (eq_refl : renderable
                    [ (py "overall_score", PInt 0);
                      (py "requirements_analysis", PList []);
                      (py "general_feedback", PStr (py "분석 중 오류가 발생했습니다."));
                      (py "improvement_suggestions", PList []) ] = true))
          as (rendered & Hr).
        eexists _, rendered. split; [reflexivity|exact Hr].
  - destruct (generate_report_ok self _ (eq_refl : renderable
                [ (py "overall_score", PInt 0);
                  (py "requirements_analysis", PList []);
                  (py "general_feedback", PStr (py "분석 중 오류가 발생했습니다."));
                  (py "improvement_suggestions", PList []) ] = true))
      as (rendered & Hr).
    eexists _, rendered. split; [reflexivity|exact Hr].
Qed.

Lemma add_suggestions_appends (prefix report : pystr) (suggestions : list pyval) :
  exists rest, add_suggestions prefix report suggestions = report ++ rest.
Proof.
  unfold add_suggestions. revert report.
  induction suggestions as [|s suggestions IH]; intro report; cbn [fold_left].
  - exists []. now rewrite app_nil_r.
  - destruct (IH (report ++ prefix ++ py_format s ++ [nl])) as (rest & ->).
    eexists. rewrite <- app_assoc. reflexivity.
Qed.

Lemma add_analysis_appends (report report' : pystr) (i : Z) (analysis : pyval) :
  add_analysis report i analysis = Returned report' ->
  exists rest, report' = report ++ rest.
Proof.
  destruct analysis; try discriminate. rewrite add_analysis_dict.
  destruct (py_iter _) as [suggestions|]; [|discriminate]. cbn [bind].
  intro H. injection H as <-.
  match goal with
  | |- context [add_suggestions ?p (report ++ ?x) ?l] =>
      destruct (add_suggestions_appends p (report ++ x) l) as (rest & ->)
  end.
  eexists. rewrite <- app_assoc. reflexivity.
Qed.

Lemma add_analyses_appends (entries : list (Z * pyval)) (report report' : pystr) :
  add_analyses report entries = Returned report' ->
  exists rest, report' = report ++ rest.
Proof.
  revert report. induction entries as [|[i analysis] entries IH]; intro report;
    cbn [add_analyses].
  - intro H. injection H as <-. exists []. now rewrite app_nil_r.
  - destruct (add_analysis report i analysis) as [r1|] eqn:E; [|discriminate].
    cbn [bind]. intro H.
    destruct (add_analysis_appends _ _ _ _ E) as (rest1 & ->).
    destruct (IH _ H) as (rest2 & ->).
    eexists. rewrite <- app_assoc. reflexivity.
Qed.

(** X5. The loops of [generate_report] only ever append: every report it
    returns begins with the title and the overall-score line, showing the
    score of the dictionary, 0 when it has none. *)
Theorem generate_report_begins
        (self : TextProcessor.t) (items : list (pystr * pyval)) (rendered : pystr) :
  generate_report self (PDict items) = Returned rendered ->
  exists rest,
    rendered =
    unlines [ []; py "# 수행평가 검사 보고서"; []; py "## 📊 전체 만족도: " ] ++
    py_format (get_default items (py "overall_score") (PInt 0)) ++
    unlines [ py "/100"; []; py "## 📋 항목별 분석 결과"; [] ] ++ rest.
Proof.
  rewrite generate_report_dict.
  destruct (py_iter (get_default items (py "requirements_analysis") (PList [])))
    as [analyses|]; [|discriminate]. cbn [bind].
  destruct (add_analyses _ (enumerate 1 analyses)) as [report|] eqn:E; [|discriminate].
  cbn [bind].
  destruct (py_iter (get_default items (py "improvement_suggestions") (PList [])))
    as [improvements|]; [|discriminate]. cbn [bind].
  intro H. injection H as <-.
  destruct (add_analyses_appends _ _ _ E) as (rest1 & ->).
  match goal with
  | |- context [add_suggestions ?p ?r ?l] =>
      destruct (add_suggestions_appends p r l) as (rest2 & ->)
  end.
  eexists. rewrite <- !app_assoc. reflexivity.
Qed.

End RenderMore.

Lemma undecoded_analysis_renders_witness :
  exists result rendered,
    fst (analyze_compliance (RT := Recorded.runtime) (Recorded.answering (py "Looks fine."))
           [PStr (py "3 pages minimum"); PInt 5] (py "essay")) = Returned result /\
    generate_report (RT := Recorded.runtime) (Recorded.answering (py "Looks fine.")) result
    = Returned rendered.
Proof.
  apply (@undecoded_analysis_renders Recorded.runtime).
  intros text value H. injection H as <-. discriminate.
Defined.

Lemma generate_report_begins_witness :
  exists rest,
    report_of {| overall_score := 85; requirements_analysis := [];
                 general_feedback := py "ok"; improvement_suggestions := [] |} =
    unlines [ []; py "# 수행평가 검사 보고서"; []; py "## 📊 전체 만족도: " ] ++
    py_format (RT := Recorded.runtime) (PInt 85) ++
    unlines [ py "/100"; []; py "## 📋 항목별 분석 결과"; [] ] ++ rest.
Proof.
  apply (@generate_report_begins Recorded.runtime (Recorded.answering [])
           (items_of_result {| overall_score := 85; requirements_analysis := [];
                               general_feedback := py "ok";
                               improvement_suggestions := [] |})).
  apply (@generate_report_typed Recorded.runtime).
Defined.

(** ** [_clean_text] and [extract_text_from_image], further *)

(** X6. [extract_text_from_image] never raises: when the OCR pipeline
    raises, it prints the error and returns the failure message followed by
    the text of the exception. *)
Theorem extract_text_from_image_returns (self : ImageProcessor.t) (image_file : list N) :
  (exists text, fst (extract_text_from_image self image_file) = Returned text) /\
  (forall e,
     image_to_string self image_file = Raised e ->
     extract_text_from_image self image_file =
     (Returned (py "이미지 처리 중 오류가 발생했습니다: " ++ exn_msg e),
      [Print (py "이미지에서 텍스트 추출 중 오류 발생: " ++ exn_msg e)])).
Proof.
  unfold extract_text_from_image.
  destruct (image_to_string self image_file) as [text|e]; cbn.
  - split; [eexists; reflexivity|discriminate].
  - split; [eexists; reflexivity|]. intros e' H. injection H as <-. reflexivity.
Qed.

Lemma extract_text_from_image_returns_witness :
  extract_text_from_image Samples.broken_engine []
  = (Returned (py "이미지 처리 중 오류가 발생했습니다: " ++ exn_msg Samples.no_engine),
     [Print (py "이미지에서 텍스트 추출 중 오류 발생: " ++ exn_msg Samples.no_engine)]).
Proof.
  destruct (extract_text_from_image_returns Samples.broken_engine []) as (_ & H).
  exact (H Samples.no_engine eq_refl).
Defined.

(** *** Lines in and out of [_clean_text] *)

Lemma split_nonempty (sep : char) (s : pystr) : split sep s <> [].
Proof.
  destruct s as [|c s]; cbn [split]; [discriminate|].
  destruct (char_eqb c sep); [discriminate|]. destruct (split sep s); discriminate.
Qed.

Lemma join_split (sep : char) (s : pystr) : join [sep] (split sep s) = s.
Proof.
  induction s as [|c s IH]; [reflexivity|]. cbn [split].
  pose proof (split_nonempty sep s) as Hne.
  destruct (split sep s) as [|f fs]; [contradiction|].
  destruct (char_eqb c sep) eqn:E.
  - apply char_eqb_eq in E. subst c.
    change (join [sep] ([] :: f :: fs)) with (sep :: join [sep] (f :: fs)).
    now rewrite IH.
  - destruct fs; cbn [join app] in *; now rewrite <- IH.
Qed.

Lemma split_field (sep : char) (field : pystr) :
  ~ In sep field -> split sep field = [field].
Proof.
  induction field as [|c field IH]; intro H; [reflexivity|]. cbn [split].
  destruct (char_eqb c sep) eqn:E.
  - apply char_eqb_eq in E. subst c. elim H. now left.
  - rewrite IH; [reflexivity|]. intro Hin. apply H. now right.
Qed.

Lemma split_app_sep (sep : char) (field rest : pystr) :
  ~ In sep field -> split sep (field ++ sep :: rest) = field :: split sep rest.
Proof.
  induction field as [|c field IH]; intro H; cbn [app split].
  - now rewrite (proj2 (char_eqb_eq sep sep) eq_refl).
  - destruct (char_eqb c sep) eqn:E.
    + apply char_eqb_eq in E. subst c. elim H. now left.
    + rewrite IH; [reflexivity|]. intro Hin. apply H. now right.
Qed.

Lemma split_join (sep : char) (fields : list pystr) :
  fields <> [] -> Forall (fun field => ~ In sep field) fields ->
  split sep (join [sep] fields) = fields.
Proof.
  induction fields as [|f fields IH]; intros Hne Hall; [contradiction|].
  inversion Hall as [|? ? Hf Hfs]; subst.
  destruct fields as [|g fields].
  - cbn [join]. now apply split_field.
  - change (join [sep] (f :: g :: fields)) with (f ++ sep :: join [sep] (g :: fields)).
    rewrite split_app_sep by assumption. f_equal. apply IH; [discriminate|assumption].
Qed.

(** The loop of [_clean_text]: the stripped lines that are not empty. *)
Lemma clean_lines_filter (lines cleaned : list pystr) :
  fold_left
    (fun cleaned_lines line =>
       let line := strip line in
       if negb (str_eqb line []) then cleaned_lines ++ [line] else cleaned_lines)
    lines cleaned
  = cleaned ++ filter nonempty (map strip lines).
Proof.
  revert cleaned. induction lines as [|line lines IH]; intro cleaned;
    cbn [fold_left map filter].
  - now rewrite app_nil_r.
  - rewrite IH. unfold nonempty at 2.
    destruct (negb (str_eqb (strip line) [])); [|reflexivity].
    now rewrite <- app_assoc.
Qed.

Lemma clean_text_lines (text : pystr) :
  text <> [] ->
  _clean_text text = join [nl] (filter nonempty (map strip (split nl text))).
Proof.
  intro Hne. unfold _clean_text.
  destruct (str_eqb text []) eqn:E; [apply str_eqb_eq in E; contradiction|].
  now rewrite clean_lines_filter.
Qed.

Lemma stripped_lines_clean (text : pystr) :
  Forall clean_line (filter nonempty (map strip (split nl text))).
Proof.
  apply Forall_forall. intros l Hl. apply filter_In in Hl. destruct Hl as [Hl Hne].
  apply nonempty_spec in Hne. apply in_map_iff in Hl. destruct Hl as (line & <- & Hline).
  pose proof (split_no_sep nl text) as Hnl. rewrite Forall_forall in Hnl.
  specialize (Hnl _ Hline). destruct (strip_part line) as (before & after & Hpart).
  repeat split.
  - exact Hne.
  - exact (not_in_part nl _ _ _ _ Hpart Hnl).
  - now apply strip_hd.
  - now apply strip_last.
Qed.

Lemma clean_line_no_newline (lines : list pystr) :
  Forall clean_line lines -> Forall (fun line => ~ In nl line) lines.
Proof. apply Forall_impl. intros l (_ & H & _). exact H. Qed.

Lemma strip_clean_line (line : pystr) : clean_line line -> strip line = line.
Proof.
  intros (Hne & _ & Hhd & Hlast). unfold strip, rstrip, lstrip.
  rewrite (drop_while_id is_space line Hhd Hne).
  rewrite drop_while_id.
  - apply rev_involutive.
  - now rewrite hd_rev.
  - intro H. apply Hne. apply (f_equal (@rev char)) in H.
    now rewrite rev_involutive in H.
Qed.

Lemma sentinel_clean :
  split nl (py "이미지에서 텍스트를 추출할 수 없습니다.")
    = [py "이미지에서 텍스트를 추출할 수 없습니다."] /\
  clean_line (py "이미지에서 텍스트를 추출할 수 없습니다.").
Proof.
  split; [vm_compute; reflexivity|].
  split; [vm_compute; discriminate|].
  split; [vm_compute; intuition discriminate|].
  split; vm_compute; reflexivity.
Qed.

Lemma cleaned_lines_clean (text : pystr) :
  _clean_text text <> [] -> Forall clean_line (split nl (_clean_text text)).
Proof.
  destruct text as [|c text].
  - intros _. change (_clean_text []) with (py "이미지에서 텍스트를 추출할 수 없습니다.").
    destruct sentinel_clean as [-> H]. now constructor.
  - rewrite clean_text_lines by discriminate. intro Hne.
    pose proof (stripped_lines_clean (c :: text)) as Hclean.
    rewrite split_join; [assumption| |now apply clean_line_no_newline].
    intro H. apply Hne. now rewrite H.
Qed.

(** X7. Whatever [_clean_text] returns, unless it is the empty string, is
    made of lines none of which is empty or has whitespace at either end:
    no blank line and no indentation survive. *)
Theorem clean_text_lines_are_clean (text : pystr) :
  _clean_text text <> [] -> Forall clean_line (split nl (_clean_text text)).
Proof. exact (cleaned_lines_clean text). Qed.

Lemma keep_clean_lines (lines : list pystr) :
  Forall clean_line lines -> filter nonempty (map strip lines) = lines.
Proof.
  induction 1 as [|line lines Hline _ IH]; [reflexivity|].
  cbn [map filter]. rewrite (strip_clean_line _ Hline).
  destruct Hline as (Hne & _). apply nonempty_spec in Hne. rewrite Hne. now f_equal.
Qed.

(** X8. Cleaning is idempotent on what it returns: a text that went through
    [_clean_text], unless it came out empty, comes out of a second pass
    unchanged. *)
Theorem clean_text_idempotent (text : pystr) :
  _clean_text text <> [] -> _clean_text (_clean_text text) = _clean_text text.
Proof.
  intro Hne. rewrite (clean_text_lines (_clean_text text) Hne).
  rewrite (keep_clean_lines _ (cleaned_lines_clean text Hne)).
  apply join_split.
Qed.

Lemma clean_text_lines_are_clean_witness :
  Forall clean_line
         (split nl (_clean_text (py "  1. Title  " ++ [nl; nl] ++ py "  body " ++ [nl]))).
Proof.
  apply clean_text_lines_are_clean. vm_compute. discriminate.
Defined.

Lemma clean_text_idempotent_witness :
  _clean_text (_clean_text (py "  1. Title  " ++ [nl; nl] ++ py "  body " ++ [nl]))
  = _clean_text (py "  1. Title  " ++ [nl; nl] ++ py "  body " ++ [nl]).
Proof.
  apply clean_text_idempotent. vm_compute. discriminate.
Defined.

(** ** [send_report_email], further *)


(** X10. The steps of a delivery keep their order whatever fails: the
    credentials are presented only after STARTTLS succeeded, the message is
    handed over only after the login succeeded, nothing reaches the relay
    unless the sender is configured and the message could be built, and a
    session that was opened is always ended with QUIT. *)
Theorem smtp_steps_in_order
        (self : EmailSender.t) (world : relay) (recipient_email report_content subject : pystr) :
  let t := snd (send_report_email self world recipient_email report_content subject) in
  (existsb is_login t = true -> starttls world = None) /\
  (existsb is_send t = true -> starttls world = None /\ login world = None) /\
  (existsb smtp_event t = true -> configured self = true /\ build world = None) /\
  (existsb smtp_event t = true -> connect world = None -> existsb is_quit t = true).
Proof.
  intro t. subst t. unfold send_report_email, configured.
  destruct (not_set (sender_email self) || not_set (sender_password self)).
  - cbn. repeat split; discriminate.
  - destruct world as [b c s l m q];
      cbn [EmailSender.build EmailSender.connect EmailSender.starttls EmailSender.login
           EmailSender.send_message EmailSender.quit].
    destruct b as [eb|], c as [ec|], s as [es|], l as [el|], m as [em|], q as [eq|];
      cbn [io_try io_bind io_with io_lift io_ret io_emit outcome attempt any_Exception
           fst snd app negb existsb is_login is_send is_quit smtp_event orb];
      repeat split; try discriminate; reflexivity.
Qed.


Lemma smtp_steps_in_order_witness :
  starttls Recorded.rejecting_login = None.
Proof.
  destruct (smtp_steps_in_order Recorded.configured Recorded.rejecting_login
              (py "a@b.co") (py "report") (py "subject")) as (H & _).
  exact (H eq_refl).
Defined.

(** ** [_create_html_email], further *)

(** A text without [old] has no longer marker that ends in [old]. *)
Lemma contains_longer (c : char) (old s : pystr) :
  contains old s = false -> contains (c :: old) s = false.
Proof.
  induction s as [|d s IH]; cbn [contains starts_with].
  - intros _. reflexivity.
  - intro H. apply orb_false_iff in H. destruct H as [_ H].
    rewrite (IH H), orb_false_r.
    destruct s as [|e s]; cbn [contains] in H; apply orb_false_iff in H;
      destruct H as [H _]; rewrite H; apply andb_false_r.
Qed.

Lemma contains_after_free (a b : char) (new s : pystr) :
  mem a new = false ->
  contains [a; b] (new ++ s) = contains [a; b] s.
Proof.
  unfold mem. induction new as [|n new IH]; [reflexivity|].
  cbn [existsb]. intro H. apply orb_false_iff in H. destruct H as [Hn Hnew].
  cbn [app contains starts_with]. rewrite Hn. cbn [andb orb]. auto.
Qed.

(** Replacing a two-character marker leaves none of it, when what replaces
    it has no first character of the marker and does not begin with the
    second. *)
Lemma no_pair_after_replace (a b n : char) (new : pystr) (m : nat) (s : pystr) :
  mem a (n :: new) = false -> char_eqb b n = false -> List.length s <= m ->
  contains [a; b] (replace [a; b] (n :: new) s) = false.
Proof.
  intros Ha Hb. unfold replace. revert s.
  induction m as [|m IH]; intros s Hlen.
  - destruct s; [reflexivity|cbn [List.length] in Hlen; lia].
  - destruct s as [|c s]; [reflexivity|]. cbn [List.length] in Hlen.
    cbn [replace_from].
    destruct (starts_with [a; b] (c :: s)) eqn:E.
    + cbn [starts_with] in E. destruct s as [|d s]; [now rewrite andb_false_r in E|].
      cbn [List.length Nat.sub replace_from].
      rewrite contains_after_free by assumption.
      apply IH. cbn [List.length] in Hlen. lia.
    + cbn [contains]. apply orb_false_iff. split; [|apply IH; lia].
      cbn [starts_with].
      destruct (char_eqb a c) eqn:Ec; [|reflexivity]. cbn [andb].
      destruct s as [|d s]; [reflexivity|].
      cbn [starts_with] in E. rewrite Ec in E. cbn [andb] in E. rewrite andb_true_r in E.
      cbn [replace_from].
      destruct (starts_with [a; b] (d :: s)).
      * cbn [app starts_with]. rewrite Hb. reflexivity.
      * cbn [starts_with]. rewrite E. reflexivity.
Qed.

Lemma starts_with_cons (a c : char) (p s : pystr) :
  starts_with (a :: p) (c :: s) = char_eqb a c && starts_with p s.
Proof. reflexivity. Qed.

Lemma replace_char_cons (x c : char) (new s : pystr) :
  replace_from [x] new 0 (c :: s) =
  if char_eqb x c then new ++ replace_from [x] new 0 s
  else c :: replace_from [x] new 0 s.
Proof.
  cbn [replace_from List.length Nat.sub]. rewrite starts_with_cons.
  change (starts_with [] s) with true. now rewrite andb_true_r.
Qed.

(** Replacing one character [x] by a text that has neither character of a
    pair keeps the pair absent. *)
Lemma no_pair_kept (a b x n : char) (new : pystr) (s : pystr) :
  mem a (n :: new) = false -> mem b (n :: new) = false ->
  contains [a; b] s = false ->
  contains [a; b] (replace [x] (n :: new) s) = false /\
  (starts_with [b] (replace [x] (n :: new) s) = true -> starts_with [b] s = true).
Proof.
  intros Ha Hb. unfold replace.
  induction s as [|c s IH]; intro H; [split; [reflexivity|discriminate]|].
  cbn [contains] in H. apply orb_false_iff in H. destruct H as [Hhead Htail].
  rewrite starts_with_cons in Hhead.
  destruct (IH Htail) as [IH1 IH2]. clear IH.
  rewrite replace_char_cons.
  destruct (char_eqb x c) eqn:Ex.
  - split.
    + now rewrite contains_after_free.
    + cbn [app]. rewrite starts_with_cons. unfold mem in Hb. cbn [existsb] in Hb.
      apply orb_false_iff in Hb. destruct Hb as [Hbn _]. rewrite Hbn. discriminate.
  - split.
    + cbn [contains]. rewrite IH1, orb_false_r, starts_with_cons.
      destruct (char_eqb a c); [|reflexivity]. cbn [andb] in *.
      destruct (starts_with [b] (replace_from [x] (n :: new) 0 s)); [|reflexivity].
      rewrite (IH2 eq_refl) in Hhead. discriminate Hhead.
    + rewrite !starts_with_cons. auto.
Qed.

(** Replacing one character distributes over concatenation. *)
Lemma replace_char_app (x : char) (new u v : pystr) :
  replace [x] new (u ++ v) = replace [x] new u ++ replace [x] new v.
Proof.
  unfold replace. induction u as [|c u IH]; [reflexivity|].
  cbn [app]. rewrite !replace_char_cons, IH.
  destruct (char_eqb x c); [now rewrite app_assoc|reflexivity].
Qed.

Lemma replace_char_free (x : char) (new u : pystr) :
  mem x u = false -> replace [x] new u = u.
Proof.
  intro H. apply replace_absent. unfold mem in H.
  induction u as [|c u IH]; [reflexivity|].
  cbn [existsb] in H. apply orb_false_iff in H. destruct H as [Hc Hu].
  cbn [contains starts_with]. rewrite Hc. cbn [andb orb]. auto.
Qed.

(** Two replacements of the same character, each keeping the character at
    the end of what it inserts, amount to one. *)
Lemma replace_char_twice (x : char) (A B s : pystr) :
  mem x A = false ->
  replace [x] (B ++ [x]) (replace [x] (A ++ [x]) s) = replace [x] (A ++ B ++ [x]) s.
Proof.
  intro HA. induction s as [|c s IH]; [reflexivity|].
  unfold replace at 2 3. rewrite !replace_char_cons.
  fold (replace [x] (A ++ [x]) s). fold (replace [x] (A ++ B ++ [x]) s).
  destruct (char_eqb x c) eqn:E.
  - rewrite !replace_char_app, IH, (replace_char_free x _ A HA).
    unfold replace at 1. rewrite replace_char_cons.
    rewrite (proj2 (char_eqb_eq x x) eq_refl). cbn [replace_from].
    now rewrite app_nil_r, <- !app_assoc.
  - unfold replace at 1. rewrite replace_char_cons, E.
    fold (replace [x] (B ++ [x]) (replace [x] (A ++ [x]) s)). now rewrite IH.
Qed.

Lemma no_heading_marker_left (s : pystr) :
  contains (py "# ") (replace (py "# ") (py "<h1>") s) = false.
Proof.
  change (py "# ") with [35%N; 32%N]. change (py "<h1>") with (60%N :: py "h1>").
  now apply (no_pair_after_replace _ _ _ _ (List.length s)).
Qed.

Lemma no_heading_marker_made (close s : pystr) :
  mem 35%N (close ++ [nl]) = false -> mem 32%N (close ++ [nl]) = false ->
  contains (py "# ") s = false ->
  contains (py "# ") (replace [nl] (close ++ [nl]) s) = false.
Proof.
  change (py "# ") with [35%N; 32%N]. intros H1 H2 H.
  destruct (close ++ [nl]) as [|n new] eqn:E.
  - destruct close; discriminate E.
  - now apply (no_pair_kept 35%N 32%N nl n new s).
Qed.

(** X11. In the body of the email every heading marker, whatever its level,
    becomes an [<h1>] (the markers [## ] and [### ] are never seen, [# ]
    having been replaced first), every line end gets the three closing
    tags, and every [**] becomes [<strong>]. *)
Theorem headings_all_become_h1 (report_content : pystr) :
  html_content_of report_content =
  replace [nl] (py "<br>" ++ [nl])
    (replace (py "**") (py "<strong>")
       (replace [nl] (py "</h1></h2></h3>" ++ [nl])
          (replace (py "# ") (py "<h1>") report_content))).
Proof.
  unfold html_content_of. rewrite second_replace_in_vain.
  set (t1 := replace (py "# ") (py "<h1>") report_content).
  assert (H1 : contains (py "# ") t1 = false) by apply no_heading_marker_left.
  set (t2 := replace [nl] (py "</h1>" ++ [nl]) t1).
  assert (H2 : contains (py "# ") t2 = false)
    by (apply no_heading_marker_made; [reflexivity|reflexivity|exact H1]).
  rewrite (replace_absent (py "## ") (py "<h2>") t2)
    by (change (py "## ") with (35%N :: py "# "); now apply contains_longer).
  set (t3 := replace [nl] (py "</h2>" ++ [nl]) t2).
  assert (H3 : contains (py "# ") t3 = false)
    by (apply no_heading_marker_made; [reflexivity|reflexivity|exact H2]).
  rewrite (replace_absent (py "### ") (py "<h3>") t3)
    by (change (py "### ") with (35%N :: 35%N :: py "# ");
        now apply contains_longer, contains_longer).
  subst t3 t2.
  rewrite (replace_char_twice nl (py "</h1>") (py "</h2>") t1) by reflexivity.
  change (py "</h1>" ++ py "</h2>" ++ [nl]) with (py "</h1></h2>" ++ [nl]).
  rewrite (replace_char_twice nl (py "</h1></h2>") (py "</h3>") t1) by reflexivity.
  reflexivity.
Qed.

(** ** [validate_email], further *)

Lemma class_char_facts (cls : list class_item) (c : char) :
  forallb (fun i => match i with
                    | Range lo hi => (hi <? 128)%N && ((at_sign <? lo)%N || (hi <? at_sign)%N)
                    | Single x => (x <? 128)%N && negb (char_eqb x at_sign)
                    end) cls = true ->
  in_class cls c = true -> is_ascii c = true /\ c <> at_sign.
Proof.
  unfold in_class, is_ascii, at_sign. induction cls as [|i cls IH]; [discriminate|].
  cbn [forallb existsb]. intros Hcls Hc.
  apply andb_true_iff in Hcls. destruct Hcls as [Hi Hcls].
  apply orb_true_iff in Hc. destruct Hc as [Hc|Hc]; [|now apply IH].
  destruct i as [lo hi|x]; cbn [in_item] in Hc.
  - apply andb_true_iff in Hi, Hc. destruct Hi as [Hhi Hat], Hc as [Hlo Hhi'].
    apply N.ltb_lt in Hhi. apply N.leb_le in Hlo, Hhi'.
    apply orb_true_iff in Hat. split; [apply N.ltb_lt; lia|].
    destruct Hat as [Hat|Hat]; apply N.ltb_lt in Hat; lia.
  - apply andb_true_iff in Hi. destruct Hi as [Hx Hat].
    apply char_eqb_eq in Hc. subst x. split; [assumption|].
    intro H. subst c. discriminate Hat.
Qed.

Lemma class_run_facts (p : char -> bool) (s : pystr) :
  (forall c, p c = true -> is_ascii c = true /\ c <> at_sign) ->
  forallb p s = true ->
  forallb is_ascii s = true /\ count_occ N.eq_dec s at_sign = 0.
Proof.
  intros Hp. induction s as [|c s IH]; [split; reflexivity|].
  cbn [forallb]. intro H. apply andb_true_iff in H. destruct H as [Hc Hs].
  destruct (Hp c Hc) as [Hascii Hat]. destruct (IH Hs) as [IH1 IH2].
  rewrite Hascii, IH1. split; [reflexivity|].
  rewrite count_occ_cons_neq by assumption. exact IH2.
Qed.

(** X12. An address [validate_email] accepts has exactly one [@], is made
    of ASCII characters only, and is at least six characters long. *)
Theorem validated_address_facts (email : pystr) :
  validate_email email = true ->
  count_occ N.eq_dec email at_sign = 1 /\
  forallb is_ascii email = true /\
  6 <= List.length email.
Proof.
  intro H. apply validate_email_spec in H.
  destruct H as (address & tail & -> & (local & domain & tld & -> & Hl & Hlocal & Hd
                                        & Hdomain & Ht & Htld) & Htail).
  assert (Fl : forall c, local_char c = true -> is_ascii c = true /\ c <> at_sign)
    by (intro c; unfold local_char; apply class_char_facts; reflexivity).
  assert (Fd : forall c, domain_char c = true -> is_ascii c = true /\ c <> at_sign)
    by (intro c; unfold domain_char; apply class_char_facts; reflexivity).
  assert (Ft : forall c, letter c = true -> is_ascii c = true /\ c <> at_sign)
    by (intro c; unfold letter; apply class_char_facts; reflexivity).
  destruct (class_run_facts local_char local Fl Hlocal) as [A1 C1].
  destruct (class_run_facts domain_char domain Fd Hdomain) as [A2 C2].
  destruct (class_run_facts letter tld Ft Htld) as [A3 C3].
  change (py "@") with [at_sign]. change (py ".") with [46%N].
  assert (Htail' : count_occ N.eq_dec tail at_sign = 0 /\ forallb is_ascii tail = true)
    by (destruct Htail as [-> | ->]; split; reflexivity).
  destruct Htail' as [C4 A4].
  repeat split.
  - rewrite !count_occ_app. change (@count_occ char) with (@count_occ N).
    rewrite C1, C2, C3, C4. reflexivity.
  - rewrite !forallb_app, A1, A2, A3, A4. reflexivity.
  - rewrite !length_app. cbn [List.length]. lia.
Qed.

Lemma validated_address_facts_witness :
  count_occ N.eq_dec (py "a.b+c@sub.domain.io") at_sign = 1 /\
  forallb is_ascii (py "a.b+c@sub.domain.io") = true /\
  6 <= List.length (py "a.b+c@sub.domain.io").
Proof.
  apply validated_address_facts. reflexivity.
Defined.

(** ** The handlers of [app.py] *)

Lemma lib_events_app (t u : list ui_event) :
  lib_events (t ++ u) = lib_events t ++ lib_events u.
Proof.
  induction t as [|ev t IH]; [reflexivity|]. destruct ev; cbn [app lib_events]; now rewrite IH.
Qed.

Lemma lib_events_map (t : list event) : lib_events (map Lib t) = t.
Proof. induction t as [|ev t IH]; [reflexivity|]. cbn [map lib_events]. now rewrite IH. Qed.

Lemma model_calls_app (t u : list event) :
  model_calls (t ++ u) = model_calls t + model_calls u.
Proof. unfold model_calls. now rewrite filter_app, length_app. Qed.

Lemma last_two (t : list ui_event) (a b d : ui_event) : last (t ++ [a; b]) d = b.
Proof. change (t ++ [a; b]) with (t ++ [a] ++ [b]). rewrite app_assoc. apply last_last. Qed.

Section HandlersMore.
Context {RT : PyRuntime}.

Lemma analyze_compliance_decoded
      (self : TextProcessor.t) (requirements : list pyval) (submission answer : pystr)
      (value : pyval) :
  generate_content self (analyze_compliance_prompt requirements submission) = Returned answer ->
  json_loads answer = Returned value ->
  analyze_compliance self requirements submission =
  (Returned value, [GenerateContent (analyze_compliance_prompt requirements submission)]).
Proof.
  intros Hcall Hloads. unfold analyze_compliance, call_model. rewrite Hcall. cbn.
  rewrite Hloads. reflexivity.
Qed.

(** X13. Each of the two methods that use the model calls it exactly once,
    with its prompt and before anything else, whatever the answer: no
    retry, no second call. *)
Theorem one_model_call_each
        (self : TextProcessor.t) (text : pystr) (requirements : list pyval) (submission : pystr) :
  (exists rest,
     snd (extract_requirements self text)
       = GenerateContent (extract_requirements_prompt text) :: rest /\
     model_calls rest = 0) /\
  (exists rest,
     snd (analyze_compliance self requirements submission)
       = GenerateContent (analyze_compliance_prompt requirements submission) :: rest /\
     model_calls rest = 0).
Proof.
  split.
  - unfold extract_requirements, call_model.
    destruct (generate_content self (extract_requirements_prompt text)) as [response|e]; cbn.
    + destruct (json_loads response) as [value|e]; cbn.
      * destruct value; eexists; split; reflexivity.
      * destruct (is_JSONDecodeError e); cbn; eexists; split; reflexivity.
    + eexists; split; reflexivity.
  - unfold analyze_compliance, call_model.
    destruct (generate_content self (analyze_compliance_prompt requirements submission))
      as [response|e]; cbn.
    + destruct (json_loads response) as [value|e]; cbn.
      * eexists; split; reflexivity.
      * destruct (is_JSONDecodeError e); cbn; eexists; split; reflexivity.
    + eexists; split; reflexivity.
Qed.

Lemma extract_requirements_calls (self : TextProcessor.t) (text : pystr) :
  model_calls (snd (extract_requirements self text)) = 1.
Proof.
  unfold extract_requirements, call_model.
  destruct (generate_content self (extract_requirements_prompt text)) as [response|e]; cbn.
  - destruct (json_loads response) as [value|e]; cbn.
    + destruct value; reflexivity.
    + destruct (is_JSONDecodeError e); reflexivity.
  - reflexivity.
Qed.

Lemma analyze_compliance_calls
      (self : TextProcessor.t) (requirements : list pyval) (submission : pystr) :
  model_calls (snd (analyze_compliance self requirements submission)) = 1.
Proof.
  unfold analyze_compliance, call_model.
  destruct (generate_content self (analyze_compliance_prompt requirements submission))
    as [response|e]; cbn.
  - destruct (json_loads response) as [value|e]; cbn.
    + reflexivity.
    + destruct (is_JSONDecodeError e); reflexivity.
  - reflexivity.
Qed.

(** X14. A click on the check button either leaves the session as it was,
    or stores together a non-empty list of requirements, the analysis made
    for them and the report rendered from that very analysis, and says so:
    the session never holds results of a failed or partial run. *)
Theorem run_check_stores_whole_results
        (genai : pystr -> pyresult TextProcessor.t) (GOOGLE_API_KEY : option pystr)
        (state : session) (requirements_text submission : pystr) :
  let ran := run_check genai GOOGLE_API_KEY state requirements_text submission in
  fst ran = state \/
  exists text_processor extracted result rendered,
    extracted <> [] /\
    fst (extract_requirements text_processor requirements_text) = Returned extracted /\
    fst (analyze_compliance text_processor extracted submission) = Returned result /\
    generate_report text_processor result = Returned rendered /\
    fst ran = {| api_key := api_key state;
                   analysis_result := Some result;
                   report := Some rendered;
                   requirements := Some extracted;
                   submission_text := Some submission |} /\
    last (snd ran) (StInfo []) =
    StSuccess (py "✅ 분석이 완료되었습니다! '결과 보기' 탭에서 확인하세요.").
Proof.
  intro ran. subst ran. unfold run_check.
  destruct (str_eqb (strip requirements_text) [] || str_eqb (strip submission) []);
    [now left|].
  destruct (not_set (api_key state)); [now left|].
  destruct (__init__ genai GOOGLE_API_KEY (api_key state)) as [tp|e]; [|now left].
  destruct (extract_requirements tp requirements_text) as [[extracted|e] t1] eqn:E1;
    [|now left].
  destruct extracted as [|req extracted]; [now left|].
  destruct (analyze_compliance tp (req :: extracted) submission) as [[result|e] t2] eqn:E2;
    [|now left].
  destruct (generate_report tp result) as [rendered|e] eqn:E3; [|now left].
  right. exists tp, (req :: extracted), result, rendered.
  split; [discriminate|]. rewrite E1, E2. cbn [fst snd].
  repeat split; try assumption.
  rewrite !app_assoc. apply last_two.
Qed.

(** X15. A click on the check button calls the model at most twice, and not
    at all when a text is blank or the API key is missing. *)
Theorem run_check_model_calls
        (genai : pystr -> pyresult TextProcessor.t) (GOOGLE_API_KEY : option pystr)
        (state : session) (requirements_text submission : pystr) :
  let shown := snd (run_check genai GOOGLE_API_KEY state requirements_text submission) in
  model_calls (lib_events shown) <= 2 /\
  (strip requirements_text = [] \/ strip submission = [] \/ not_set (api_key state) = true ->
   model_calls (lib_events shown) = 0).
Proof.
  intro shown. subst shown. unfold run_check.
  destruct (str_eqb (strip requirements_text) [] || str_eqb (strip submission) []) eqn:Hblank.
  { cbn. split; [lia|reflexivity]. }
  apply orb_false_iff in Hblank. destruct Hblank as [Hb1 Hb2].
  destruct (not_set (api_key state)) eqn:Hkey.
  { cbn. split; [lia|reflexivity]. }
  assert (Hno : ~ (strip requirements_text = [] \/ strip submission = [] \/ false = true)).
  { intros [H|[H|H]]; [rewrite H in Hb1|rewrite H in Hb2|]; discriminate. }
  split; [|intro H; now elim Hno].
  destruct (__init__ genai GOOGLE_API_KEY (api_key state)) as [tp|e]; [|cbn; lia].
  pose proof (extract_requirements_calls tp requirements_text) as C1.
  destruct (extract_requirements tp requirements_text) as [[extracted|e] t1]; cbn [snd] in *.
  - destruct extracted as [|req extracted].
    + cbn [snd]. rewrite !lib_events_app, lib_events_map, !model_calls_app, C1. cbn. lia.
    + pose proof (analyze_compliance_calls tp (req :: extracted) submission) as C2.
      destruct (analyze_compliance tp (req :: extracted) submission) as [[result|e] t2];
        cbn [snd] in *.
      * destruct (generate_report tp result); cbn [snd];
          rewrite !lib_events_app, !lib_events_map, !model_calls_app, C1, C2; cbn; lia.
      * rewrite !lib_events_app, !lib_events_map, !model_calls_app, C1, C2. cbn. lia.
  - rewrite !lib_events_app, lib_events_map, !model_calls_app, C1. cbn. lia.
Qed.

(** X16. When the model cannot be reached while the requirements are
    extracted, the page reports that no requirement could be extracted, not
    the error itself (which is only printed); the analysis is not attempted
    and the session is left as it was. *)
Theorem run_check_model_unreachable
        (genai : pystr -> pyresult TextProcessor.t) (GOOGLE_API_KEY : option pystr)
        (state : session) (requirements_text submission : pystr)
        (text_processor : TextProcessor.t) (e : exn) :
  str_eqb (strip requirements_text) [] || str_eqb (strip submission) [] = false ->
  not_set (api_key state) = false ->
  __init__ genai GOOGLE_API_KEY (api_key state) = Returned text_processor ->
  generate_content text_processor (extract_requirements_prompt requirements_text) = Raised e ->
  run_check genai GOOGLE_API_KEY state requirements_text submission =
  (state,
   [ StSpinner (py "AI가 분석 중입니다...");
     StInfo (py "📋 요구조건을 분석하고 있습니다...");
     Lib (GenerateContent (extract_requirements_prompt requirements_text));
     Lib (Print (py "요구조건 추출 중 오류 발생: " ++ exn_msg e));
     Lib (StError (py "요구조건을 추출할 수 없습니다. 텍스트를 다시 확인해주세요.")) ]).
Proof.
  intros Hblank Hkey Hinit Hcall. unfold run_check. rewrite Hblank, Hkey, Hinit.
  unfold extract_requirements, call_model. rewrite Hcall. reflexivity.
Qed.

(** X17. When the analysis answer is JSON but not an object, so that
    [analyze_compliance] returns it as it is, the report cannot be
    rendered: the page shows the [AttributeError] and the session is left
    as it was. *)
Theorem run_check_answer_not_an_object
        (genai : pystr -> pyresult TextProcessor.t) (GOOGLE_API_KEY : option pystr)
        (state : session) (requirements_text submission : pystr)
        (text_processor : TextProcessor.t) (extracted : list pyval) (t1 : list event)
        (answer : pystr) (value : pyval) :
  str_eqb (strip requirements_text) [] || str_eqb (strip submission) [] = false ->
  not_set (api_key state) = false ->
  __init__ genai GOOGLE_API_KEY (api_key state) = Returned text_processor ->
  extract_requirements text_processor requirements_text = (Returned extracted, t1) ->
  extracted <> [] ->
  generate_content text_processor (analyze_compliance_prompt extracted submission)
    = Returned answer ->
  json_loads answer = Returned value ->
  (forall items, value <> PDict items) ->
  let ran := run_check genai GOOGLE_API_KEY state requirements_text submission in
  fst ran = state /\
  last (snd ran) (StInfo []) =
  analysis_error (Exn AttributeError
                      (py "'" ++ type_name value ++ py "' object has no attribute 'get'")).
Proof.
  intros Hblank Hkey Hinit Hextract Hne Hcall Hloads Hvalue ran. subst ran.
  unfold run_check. rewrite Hblank, Hkey, Hinit, Hextract.
  destruct extracted as [|req extracted]; [contradiction|].
  rewrite (analyze_compliance_decoded _ _ _ _ _ Hcall Hloads).
  assert (Hraise : generate_report text_processor value =
                   Raised (Exn AttributeError
                             (py "'" ++ type_name value ++ py "' object has no attribute 'get'")))
    by (destruct value; try reflexivity; now elim (Hvalue items)).
  rewrite Hraise. cbn [fst snd]. split; [reflexivity|].
  rewrite !app_assoc. apply last_two.
Qed.

End HandlersMore.

Lemma send_report_email_total
      (self : EmailSender.t) (world : relay) (recipient_email report_content subject : pystr) :
  exists ok,
    fst (send_report_email self world recipient_email report_content subject) = Returned ok.
Proof.
  unfold send_report_email.
  destruct (not_set (sender_email self) || not_set (sender_password self));
    [eexists; reflexivity|].
  destruct world as [b c s l m q];
    cbn [EmailSender.build EmailSender.connect EmailSender.starttls EmailSender.login
         EmailSender.send_message EmailSender.quit].
  destruct b, c, s, l, m, q;
    cbn [io_try io_bind io_with io_lift io_ret io_emit outcome attempt any_Exception
         fst snd app]; eexists; reflexivity.
Qed.

Lemma init_returns (EMAIL_ADDRESS EMAIL_PASSWORD : option pystr) :
  exists t0,
    init EMAIL_ADDRESS EMAIL_PASSWORD =
    (Returned {| smtp_server := py "smtp.gmail.com"; smtp_port := 587;
                 sender_email := EMAIL_ADDRESS; sender_password := EMAIL_PASSWORD |}, t0) /\
    existsb smtp_event t0 = false.
Proof.
  unfold init. cbn [sender_email sender_password].
  destruct (not_set EMAIL_ADDRESS || not_set EMAIL_PASSWORD); eexists; split; reflexivity.
Qed.

(** X18. A click on the send button never raises, and nothing reaches the
    mail relay unless the recipient was entered and [validate_email]
    accepted it. *)
Theorem send_clicked_checks_recipient
        (EMAIL_ADDRESS EMAIL_PASSWORD : option pystr) (world : relay)
        (rendered recipient_email email_subject : pystr) :
  let clicked := send_clicked EMAIL_ADDRESS EMAIL_PASSWORD world rendered
                              recipient_email email_subject in
  fst clicked = Returned tt /\
  (existsb smtp_event (lib_events (snd clicked)) = true ->
   recipient_email <> [] /\ validate_email recipient_email = true).
Proof.
  intro clicked. subst clicked. unfold send_clicked.
  destruct (str_eqb recipient_email []) eqn:Hempty.
  { cbn. split; [reflexivity|discriminate]. }
  destruct (init_returns EMAIL_ADDRESS EMAIL_PASSWORD) as (t0 & -> & Ht0).
  destruct (validate_email recipient_email) eqn:Hvalid; cbn [negb].
  - destruct (send_report_email_total
                {| smtp_server := py "smtp.gmail.com"; smtp_port := 587;
                   sender_email := EMAIL_ADDRESS; sender_password := EMAIL_PASSWORD |}
                world recipient_email rendered email_subject) as (ok & Hok).
    destruct (send_report_email _ world recipient_email rendered email_subject) as [r t].
    cbn [fst] in Hok. subst r. cbn [fst snd]. split; [reflexivity|].
    intros _. split; [|reflexivity]. intro H. subst recipient_email. discriminate Hempty.
  - cbn [fst snd]. split; [reflexivity|].
    rewrite lib_events_app, lib_events_map, existsb_app, Ht0. cbn. discriminate.
Qed.

Lemma run_check_model_calls_witness :
  model_calls
    (lib_events
       (snd (run_check (RT := Recorded.runtime) Samples.genai_failing None Samples.fresh
                       (py "   ") (py "essay")))) = 0.
Proof.
  destruct (@run_check_model_calls Recorded.runtime Samples.genai_failing None Samples.fresh
              (py "   ") (py "essay")) as [_ H].
  apply H. left. reflexivity.
Defined.

Lemma run_check_model_unreachable_witness :
  run_check (RT := Recorded.runtime) Samples.genai_failing None Samples.fresh
            (py "1. three pages") (py "essay") =
  (Samples.fresh,
   [ StSpinner (py "AI가 분석 중입니다...");
     StInfo (py "📋 요구조건을 분석하고 있습니다...");
     Lib (GenerateContent (extract_requirements_prompt (py "1. three pages")));
     Lib (Print (py "요구조건 추출 중 오류 발생: " ++ exn_msg Samples.quota_exceeded));
     Lib (StError (py "요구조건을 추출할 수 없습니다. 텍스트를 다시 확인해주세요.")) ]).
Proof.
  apply (@run_check_model_unreachable Recorded.runtime Samples.genai_failing None
           Samples.fresh (py "1. three pages") (py "essay") Recorded.failing
           Samples.quota_exceeded).
  - vm_compute. reflexivity.
  - reflexivity.
  - reflexivity.
  - reflexivity.
Defined.

Lemma run_check_answer_not_an_object_witness :
  fst (run_check (RT := Recorded.runtime) (Samples.genai_answering Recorded.array_text) None
                 Samples.fresh (py "a, b and a") (py "essay")) = Samples.fresh /\
  last (snd (run_check (RT := Recorded.runtime) (Samples.genai_answering Recorded.array_text)
                       None Samples.fresh (py "a, b and a") (py "essay"))) (StInfo []) =
  analysis_error
    (Exn AttributeError
         (py "'" ++ type_name (PList [PStr (py "a"); PStr (py "b"); PStr (py "a")]) ++
          py "' object has no attribute 'get'")).
Proof.
  apply (@run_check_answer_not_an_object Recorded.runtime
           (Samples.genai_answering Recorded.array_text) None Samples.fresh
           (py "a, b and a") (py "essay") (Recorded.answering Recorded.array_text)
           [PStr (py "a"); PStr (py "b"); PStr (py "a")]
           [GenerateContent (extract_requirements_prompt (py "a, b and a"))]
           Recorded.array_text (PList [PStr (py "a"); PStr (py "b"); PStr (py "a")])).
  - vm_compute. reflexivity.
  - reflexivity.
  - reflexivity.
  - vm_compute. reflexivity.
  - discriminate.
  - reflexivity.
  - vm_compute. reflexivity.
  - discriminate.
Defined.

Lemma send_clicked_checks_recipient_witness :
  py "a@b.co" <> [] /\ validate_email (py "a@b.co") = true.
Proof.
  destruct (send_clicked_checks_recipient (Some (py "checkmate@gmail.com"))
              (Some (py "app-password")) Recorded.healthy (py "report") (py "a@b.co")
              (py "subject")) as [_ H].
  apply H. vm_compute. reflexivity.
Defined.
